(** * One-time code lifecycle of the Red Inteligente authentication API

    A shallow embedding of [app/models/code_verification.py] and
    [app/services/code_service.py], and the properties of the code service
    that follow from it.

    Conventions of the embedding.
    - A [datetime] is an integer number of microseconds since the epoch (the
      resolution of Python's [datetime]); a [date] is a number of days.
    - [(a - b).total_seconds() / 60 < m] is compared exactly, as
      [a - b < m * 60_000_000] on microseconds, and [int(x)] is truncation
      toward zero ([Z.quot]).
    - Every call of [datetime.utcnow()] is a separate reading of the clock.
    - The table [dbo.user_pswr] is a finite map from the primary key [id] to
      the row.  A session writes to it only at [db.commit()]; [db.rollback()]
      and [db.close()] discard what was not committed and never raise.
    - Any database call may raise: the environment of an invocation says
      which ones do, and with what message ([str(e)] of the driver's error,
      which can quote the statement and its parameters).
    - A string is the UTF-8 encoding of a Python [str].  [int()] and the
      validators are modelled on ASCII text; a statement that needs a
      string to be rejected says that the string is ASCII.
    - [passlib.hash.argon2] is a parameter of the development. *)

From Stdlib Require Import ZArith String Ascii List Bool Lia DecimalString.
From stdpp Require Import base gmap fin_maps.

Local Open Scope string_scope.
Local Open Scope Z_scope.

(** ** Python builtins used by the service *)

Module Py.

(** Whitespace that [int()] strips from an ASCII string: tab, line feed,
    vertical tab, form feed, carriage return and space. *)
Definition is_space (c : ascii) : bool :=
  let n := Z.of_nat (nat_of_ascii c) in
  ((9 <=? n) && (n <=? 13)) || (n =? 32).

(** Every character is ASCII. *)
Fixpoint is_ascii (s : string) : bool :=
  match s with
  | EmptyString => true
  | String c s' => (Z.of_nat (nat_of_ascii c) <? 128) && is_ascii s'
  end.

Definition digit_of (c : ascii) : option Z :=
  let n := Z.of_nat (nat_of_ascii c) in
  if (48 <=? n) && (n <=? 57) then Some (n - 48) else None.

Fixpoint lstrip (s : string) : string :=
  match s with
  | String c s' => if is_space c then lstrip s' else s
  | EmptyString => s
  end.

Fixpoint rev_append (s acc : string) : string :=
  match s with
  | String c s' => rev_append s' (String c acc)
  | EmptyString => acc
  end.

Definition rev (s : string) : string := rev_append s EmptyString.

Definition strip (s : string) : string := rev (lstrip (rev (lstrip s))).

(** Decimal digits, single underscores allowed between two digits.
    [seen] says that the previous character was a digit. *)
Fixpoint digits (acc : Z) (seen : bool) (s : string) : option Z :=
  match s with
  | EmptyString => if seen then Some acc else None
  | String c s' =>
      match digit_of c with
      | Some d => digits (10 * acc + d) true s'
      | None =>
          if (Ascii.eqb c "_" && seen)%bool then digits acc false s' else None
      end
  end.

(** The number of decimal digits in [s]. *)
Fixpoint count_digits (s : string) : nat :=
  match s with
  | EmptyString => O
  | String c s' =>
      match digit_of c with
      | Some _ => S (count_digits s')
      | None => count_digits s'
      end
  end.

(** The default of [sys.set_int_max_str_digits]. *)
Definition max_str_digits : Z := 4300.

(** The digits after the sign: more than [max_str_digits] of them is a
    [ValueError]. *)
Definition magnitude (r : string) : option Z :=
  if max_str_digits <? Z.of_nat (count_digits r) then None
  else digits 0 false r.

(** [int(s)] for an ASCII string [s]; [None] stands for [ValueError].
    On a string with non-ASCII characters [int()] can accept what this
    rejects (Unicode digits and spaces): the model is not used there. *)
Definition int (s : string) : option Z :=
  match strip s with
  | String "+" r => magnitude r
  | String "-" r => Z.opp <$> magnitude r
  | r => magnitude r
  end.

(** [s[:n]]: the first [n] characters, a character being a byte that is
    not a UTF-8 continuation byte together with the continuation bytes
    that follow it. *)
Definition is_continuation (c : ascii) : bool :=
  let b := Z.of_nat (nat_of_ascii c) in (128 <=? b) && (b <? 192).

Fixpoint take_chars (n : nat) (s : string) : string :=
  match s with
  | EmptyString => EmptyString
  | String c s' =>
      if is_continuation c then String c (take_chars n s')
      else
        match n with
        | O => EmptyString
        | S n' => String c (take_chars n' s')
        end
  end.

(** [str(n)] for an integer [n]. *)
Definition str (n : Z) : string := NilZero.string_of_int (Z.to_int n).

(** [bool(s)] for an optional string: [None] and [''] are falsy. *)
Definition truthy (s : option string) : bool :=
  match s with
  | Some (String _ _) => true
  | _ => false
  end.

(** [timedelta(minutes=m)] in microseconds. *)
Definition timedelta_minutes (m : Z) : Z := m * 60000000.

Definition us_per_minute : Z := 60000000.
Definition us_per_hour : Z := 3600000000.
Definition us_per_day : Z := 86400000000.

(** [dt.date()] as a number of days. *)
Definition date (dt : Z) : Z := dt / us_per_day.

End Py.

(** ** [app/core/config.py] *)

Record Settings := {
  CODE_EXPIRATION_MINUTES : Z;
  CODE_RESEND_DELAY_MINUTES : Z;
  CODE_MAX_RESEND_PER_HOUR : Z
}.

(** The defaults of the [Settings] class. *)
Definition default_settings : Settings :=
  {| CODE_EXPIRATION_MINUTES := 30;
     CODE_RESEND_DELAY_MINUTES := 2;
     CODE_MAX_RESEND_PER_HOUR := 5 |}.

(** ** [passlib.hash.argon2] *)

(** The hasher is an external library.  [argon2_hash salt code] is
    [argon2.hash(code)] when the library draws [salt]; [argon2_verify]
    returns [None] when [argon2.verify] raises (malformed digest). *)
Class Argon2 := {
  argon2_hash : string -> string -> string;
  argon2_verify : string -> string -> option bool
}.

(** ** [app/models/user.py]: the columns of [dbo.stg_personal] the service reads *)

Module User.
Record row := {
  nro_documento : string;
  ds_empleado : option string;
  correo : option string;
  movil : option string;
  ds_cargo : option string;
  cod_oficina_area : option string;
  dt_fin_contrato : option Z
}.

(** [is_active], with [date.today()] as [today]. *)
Definition is_active (self : row) (today : Z) : bool :=
  match dt_fin_contrato self with
  | None => true
  | Some dt_fin_contrato => today <=? dt_fin_contrato
  end.
End User.

(** ** Exceptions and the invocation monad *)

Inductive exn :=
| HTTPException (status_code : Z) (detail : string)
| Exception (message : string).

Inductive result (A : Type) :=
| Return (a : A)
| Raise (e : exn).
Arguments Return {A} a.
Arguments Raise {A} e.

(** What one invocation of a service method receives from outside. *)
Record Env := {
  utcnow_at : nat -> Z;                      (* n-th reading of datetime.utcnow() *)
  db_raises : nat -> bool;                   (* does the n-th database call raise *)
  db_error : nat -> string;                  (* str(e) of the error it raises *)
  stg_personal : string -> option User.row;  (* SELECT ... WHERE nro_documento = :d, fetchone() *)
  secrets_choice : nat -> nat;               (* n-th draw of secrets.choice *)
  argon2_salt : string
}.

(** ** [app/models/code_verification.py] *)

Module CodeVerification.

(** A row of [dbo.user_pswr].  [correo] may hold [None] on the Python
    object; the column is NOT NULL, which [commit] enforces. *)
Record t := {
  id : Z;
  correo : option string;
  movil : Z;
  pswr : string;
  time_stamp_generacion : Z;
  time_stamp_vencimiento : Z;
  revoked : Z;
  resend_count : Z;
  last_resend_at : option Z
}.

Definition delay_message (wait_time : Z) : string :=
  "Debe esperar " ++ Py.str wait_time ++
  " minuto(s) antes de solicitar un nuevo código.".

Definition hourly_message : string :=
  "Ha excedido el límite de reenvíos por hora. Intente más tarde.".

Section Methods.
Variable settings : Settings.

Definition is_valid (self : t) (now : Z) : bool :=
  if negb (revoked self =? 0) then false
  else now <=? time_stamp_vencimiento self.

Definition mark_as_revoked (self : t) : t :=
  {| id := id self; correo := correo self; movil := movil self;
     pswr := pswr self;
     time_stamp_generacion := time_stamp_generacion self;
     time_stamp_vencimiento := time_stamp_vencimiento self;
     revoked := 1;
     resend_count := resend_count self;
     last_resend_at := last_resend_at self |}.

Definition reset_resend_count (self : t) : t :=
  {| id := id self; correo := correo self; movil := movil self;
     pswr := pswr self;
     time_stamp_generacion := time_stamp_generacion self;
     time_stamp_vencimiento := time_stamp_vencimiento self;
     revoked := revoked self;
     resend_count := 0;
     last_resend_at := None |}.

Definition increment_resend (self : t) (now : Z) : t :=
  {| id := id self; correo := correo self; movil := movil self;
     pswr := pswr self;
     time_stamp_generacion := time_stamp_generacion self;
     time_stamp_vencimiento := time_stamp_vencimiento self;
     revoked := revoked self;
     resend_count := resend_count self + 1;
     last_resend_at := Some now |}.

(** [int(settings.CODE_RESEND_DELAY_MINUTES - time_since_last) + 1] where
    [time_since_last] is [now - last] in minutes. *)
Definition wait_time (now last : Z) : Z :=
  Z.quot (CODE_RESEND_DELAY_MINUTES settings * Py.us_per_minute - (now - last))
         Py.us_per_minute + 1.

(** The minimum-delay check: [Some message] when it refuses. *)
Definition delay_check (self : t) (now : Z) : option string :=
  match last_resend_at self with
  | Some last =>
      if now - last <? CODE_RESEND_DELAY_MINUTES settings * Py.us_per_minute
      then Some (delay_message (wait_time now last))
      else None
  | None => None
  end.

(** [can_resend] reads the clock once ([now]).  It returns the pair
    [(puede_reenviar, mensaje_error)] and the object as the call leaves
    it: the hourly branch resets the counters of [self] in place. *)
Definition can_resend (self : t) (now : Z) : (bool * string) * t :=
  match delay_check self now with
  | Some message => ((false, message), self)
  | None =>
      if CODE_MAX_RESEND_PER_HOUR settings <=? resend_count self then
        if now - time_stamp_generacion self <? 1 * Py.us_per_hour
        then ((false, hourly_message), self)
        else ((true, ""), reset_resend_count self)
      else ((true, ""), self)
  end.

Definition time_until_expiry (self : t) (now1 now2 : Z) : option Z :=
  if time_stamp_vencimiento self <? now1 then None
  else Some (Z.quot (time_stamp_vencimiento self - now2) Py.us_per_minute).

(** [create_code] with [expiration_minutes] left to its default.  The
    expiry is computed from a first reading of the clock ([now_expiry]),
    the generation stamp from a second one ([now_generacion]). *)
Definition create_code (document_number : Z) (correo : option string)
    (movil : Z) (pswr : string) (now_expiry now_generacion : Z) : t :=
  let expiration_minutes := CODE_EXPIRATION_MINUTES settings in
  let expires_at := now_expiry + Py.timedelta_minutes expiration_minutes in
  {| id := document_number; correo := correo; movil := movil;
     pswr := pswr;
     time_stamp_generacion := now_generacion;
     time_stamp_vencimiento := expires_at;
     revoked := 0;
     resend_count := 0;
     last_resend_at := None |}.

End Methods.

End CodeVerification.

(** ** Sessions of [app/core/database.py] *)

(** The state an invocation threads: the committed rows of [dbo.user_pswr]
    and how many clock readings and database calls it has made. *)
Record State := {
  user_pswr : gmap Z CodeVerification.t;
  utc_reads : nat;
  db_calls : nat
}.

Definition M (A : Type) : Type := Env -> State -> result A * State.

Definition ret {A} (a : A) : M A := fun _ st => (Return a, st).

Definition raise {A} (e : exn) : M A := fun _ st => (Raise e, st).

Definition bind {A B} (m : M A) (k : A -> M B) : M B :=
  fun env st =>
    match m env st with
    | (Return a, st') => k a env st'
    | (Raise e, st') => (Raise e, st')
    end.

(** [try: m except <any>: h]. *)
Definition try_except {A} (m : M A) (h : exn -> M A) : M A :=
  fun env st =>
    match m env st with
    | (Return a, st') => (Return a, st')
    | (Raise e, st') => h e env st'
    end.

Notation "'let*' x ':=' m 'in' k" := (bind m (fun x => k))
  (at level 10, x name, m at level 100, k at level 200).
Notation "m ';;' k" := (bind m (fun _ => k))
  (at level 100, k at level 200, right associativity).

Definition utcnow : M Z :=
  fun env st =>
    (Return (utcnow_at env (utc_reads st)),
     {| user_pswr := user_pswr st;
        utc_reads := S (utc_reads st);
        db_calls := db_calls st |}).

(** A database call: it raises when the environment says so. *)
Definition db_call {A} (run : gmap Z CodeVerification.t -> A * gmap Z CodeVerification.t) : M A :=
  fun env st =>
    let n := db_calls st in
    if db_raises env n then
      (Raise (Exception (db_error env n)),
       {| user_pswr := user_pswr st; utc_reads := utc_reads st; db_calls := S n |})
    else
      let '(a, rows) := run (user_pswr st) in
      (Return a, {| user_pswr := rows; utc_reads := utc_reads st; db_calls := S n |}).

(** [db.query(CodeVerification).filter(CodeVerification.id == k).first()] *)
Definition query_first (k : Z) : M (option CodeVerification.t) :=
  db_call (fun rows => (rows !! k, rows)).

(** [db.execute(text("SELECT ... FROM dbo.stg_personal WHERE nro_documento
    = :document_number"), ...).fetchone()] *)
Definition select_personal (document_number : string) : M (option User.row) :=
  fun env => db_call (fun rows => (stg_personal env document_number, rows)) env.

(** A database call that raises whatever the environment says. *)
Definition db_failure {A} : M A :=
  fun env st =>
    (Raise (Exception (db_error env (db_calls st))),
     {| user_pswr := user_pswr st; utc_reads := utc_reads st;
        db_calls := S (db_calls st) |}).

(** [db.commit()] of a session whose only dirty object is [row], loaded
    from key [k]: the UPDATE goes to the row of that key.  The column
    [correo] is NOT NULL: a row without it makes the commit raise. *)
Definition commit_dirty (k : Z) (row : CodeVerification.t) : M unit :=
  match CodeVerification.correo row with
  | None => db_failure
  | Some _ => db_call (fun rows => (tt, <[k := row]> rows))
  end.

(** [db.commit()] of a session whose only new object is [row] ([db.add]):
    the INSERT creates the row under its [id]. *)
Definition commit_new (row : CodeVerification.t) : M unit :=
  commit_dirty (CodeVerification.id row) row.

(** The rows a [DELETE ... WHERE time_stamp_vencimiento < now AND revoked = 0]
    matches. *)
Definition expired_unused (now : Z) (kv : Z * CodeVerification.t) : Prop :=
  CodeVerification.time_stamp_vencimiento kv.2 < now /\ CodeVerification.revoked kv.2 = 0.

#[global] Instance expired_unused_dec now kv : Decision (expired_unused now kv).
Proof. unfold expired_unused. apply _. Defined.

(** [query.filter(...).delete()] runs the DELETE inside the transaction: it
    returns the number of rows matched and the rows that remain, which reach
    the table at [commit_delete]. *)
Definition delete_expired (now : Z) : M (Z * gmap Z CodeVerification.t) :=
  db_call (fun rows =>
    ((Z.of_nat (size (filter (expired_unused now) rows)),
      filter (fun kv => ~ expired_unused now kv) rows), rows)).

Definition commit_delete (remaining : gmap Z CodeVerification.t) : M unit :=
  db_call (fun _ => (tt, remaining)).

(** [db.rollback()]: nothing uncommitted is in [user_pswr]. *)
Definition rollback : M unit := ret tt.

(** Runs an invocation on the committed rows: its result and the rows it
    leaves committed. *)
Definition run {A} (m : M A) (env : Env) (rows : gmap Z CodeVerification.t)
    : result A * gmap Z CodeVerification.t :=
  let '(r, st) := m env {| user_pswr := rows; utc_reads := 0; db_calls := 0 |} in
  (r, user_pswr st).

(** ** [app/services/code_service.py] *)

Module Generated.
(** The dict [generate_code] returns. *)
Record t := { correo : option string; nombre : option string; code : string }.
End Generated.

Module Profile.
(** The ["data"] dict of a successful validation. *)
Record t := {
  document_number : string;
  nombre : option string;
  correo : option string;
  cargo : option string;
  oficina : option string
}.
End Profile.

Module Validation.
(** The dict [validate_code] returns. *)
Record t := { success : bool; message : string; data : option Profile.t }.

Definition failure (message : string) : t :=
  {| success := false; message := message; data := None |}.
End Validation.

Module CodeService.

Definition msg_not_found : string :=
  "No se encontró un código de verificación para este usuario.".
Definition msg_already_used : string :=
  "El código ya fue utilizado. Solicite uno nuevo.".
Definition msg_expired : string :=
  "El código ha expirado. Solicite uno nuevo.".
Definition msg_incorrect : string :=
  "El código ingresado es incorrecto.".
Definition msg_verified : string :=
  "Código verificado correctamente.".

(** [int(s)] inside a [try]: a [ValueError] is an ordinary exception. *)
Definition int (s : string) : M Z :=
  match Py.int s with
  | Some z => ret z
  | None => raise (Exception ("invalid literal for int() with base 10: '" ++ s ++ "'"))
  end.

Definition digit_char (n : nat) : ascii := ascii_of_nat (48 + n mod 10).

(** [''.join(secrets.choice("0123456789") for _ in range(6))] *)
Definition draw_code : M string :=
  fun env =>
    ret (string_of_list_ascii
           (List.map (fun i => digit_char (secrets_choice env i)) (seq 0 6))) env.

Section Service.
Context {argon2 : Argon2}.
Variable settings : Settings.

Definition hash_code (code : string) : M string :=
  fun env => ret (argon2_hash (argon2_salt env) code) env.

Definition verify_code_hash (code hashed_code : string) : bool :=
  match argon2_verify code hashed_code with
  | Some b => b
  | None => false
  end.

(** The update of an existing row (lines 79-92): the generation stamp
    and the expiry come from two readings of the clock, a resend reads
    it a third time. *)
Definition overwrite (existing_code : CodeVerification.t) (user : User.row)
    (movil_int : Z) (hashed_code : string) (is_resend : bool)
    : M CodeVerification.t :=
  let* now_generacion := utcnow in
  let* now_vencimiento := utcnow in
  if is_resend then
    let* now_resend := utcnow in
    ret {| CodeVerification.id := CodeVerification.id existing_code;
           CodeVerification.correo := User.correo user;
           CodeVerification.movil := movil_int;
           CodeVerification.pswr := hashed_code;
           CodeVerification.time_stamp_generacion := now_generacion;
           CodeVerification.time_stamp_vencimiento :=
             now_vencimiento
             + Py.timedelta_minutes (CODE_EXPIRATION_MINUTES settings);
           CodeVerification.revoked := 0;
           CodeVerification.resend_count :=
             CodeVerification.resend_count existing_code + 1;
           CodeVerification.last_resend_at := Some now_resend |}
  else
    ret {| CodeVerification.id := CodeVerification.id existing_code;
           CodeVerification.correo := User.correo user;
           CodeVerification.movil := movil_int;
           CodeVerification.pswr := hashed_code;
           CodeVerification.time_stamp_generacion := now_generacion;
           CodeVerification.time_stamp_vencimiento :=
             now_vencimiento
             + Py.timedelta_minutes (CODE_EXPIRATION_MINUTES settings);
           CodeVerification.revoked := 0;
           CodeVerification.resend_count := 0;
           CodeVerification.last_resend_at := None |}.

Definition generate_code (document_number : string) (is_resend : bool)
    : M Generated.t :=
  try_except
    (let* user := select_personal document_number in
     match user with
     | None =>
         raise (HTTPException 404 "Usuario no encontrado en la base de datos.")
     | Some user =>
         let* ended :=
           match User.dt_fin_contrato user with
           | Some dt_fin_contrato =>
               let* now := utcnow in ret (dt_fin_contrato <? Py.date now)
           | None => ret false
           end in
         if ended then
           raise (HTTPException 403
             "El usuario no está activo debido a la finalización del contrato.")
         else
           let* code := draw_code in
           let* hashed_code := hash_code code in
           let* movil_int :=
             if Py.truthy (User.movil user)
             then int (default "" (User.movil user))
             else ret 0 in
           let* key := int document_number in
           let* existing_code := query_first key in
           match existing_code with
           | Some existing_code =>
               let* row :=
                 overwrite existing_code user movil_int hashed_code is_resend in
               commit_dirty key row
           | None =>
               let* now_expiry := utcnow in
               let* now_generacion := utcnow in
               commit_new
                 (CodeVerification.create_code settings key (User.correo user)
                    movil_int hashed_code now_expiry now_generacion)
           end ;;
           ret {| Generated.correo := User.correo user;
                  Generated.nombre := User.ds_empleado user;
                  Generated.code := code |}
     end)
    (fun e =>
       match e with
       | HTTPException _ _ => raise e
       | Exception message =>
           rollback ;;
           raise (HTTPException 500
             ("Error al generar el código de validación: " ++ message))
       end).

Definition validate_code (document_number code : string) : M Validation.t :=
  try_except
    (let* key := int document_number in
     let* code_instance := query_first key in
     match code_instance with
     | None => ret (Validation.failure msg_not_found)
     | Some code_instance =>
         if negb (CodeVerification.revoked code_instance =? 0) then
           ret (Validation.failure msg_already_used)
         else
           let* now := utcnow in
           if CodeVerification.time_stamp_vencimiento code_instance <? now then
             ret (Validation.failure msg_expired)
           else if negb (verify_code_hash code (CodeVerification.pswr code_instance)) then
             ret (Validation.failure msg_incorrect)
           else
             commit_dirty key (CodeVerification.mark_as_revoked code_instance) ;;
             let* user := select_personal document_number in
             ret {| Validation.success := true;
                    Validation.message := msg_verified;
                    Validation.data := Some
                      {| Profile.document_number := document_number;
                         Profile.nombre := user ≫= User.ds_empleado;
                         Profile.correo := user ≫= User.correo;
                         Profile.cargo := user ≫= User.ds_cargo;
                         Profile.oficina := user ≫= User.cod_oficina_area |} |}
     end)
    (fun e =>
       rollback ;;
       raise (HTTPException 500 "Error al validar el código de validación.")).

(** The session of [resend_code] is closed without a commit: what
    [can_resend] changed on [existing_code] is dropped, and
    [generate_code] reads the row again in a session of its own. *)
Definition resend_code (document_number : string) : M Generated.t :=
  try_except
    (let* key := int document_number in
     let* existing_code := query_first key in
     match existing_code with
     | Some existing_code =>
         let* now := utcnow in
         let '((can_resend, error_message), _) :=
           CodeVerification.can_resend settings existing_code now in
         if negb can_resend then raise (HTTPException 429 error_message)
         else ret tt
     | None => ret tt
     end ;;
     generate_code document_number true)
    (fun e =>
       match e with
       | HTTPException _ _ => raise e
       | Exception message =>
           raise (HTTPException 500 ("Error al reenviar el código: " ++ message))
       end).

Definition cleanup_expired_codes : M Z :=
  try_except
    (let* now := utcnow in
     let* deleted := delete_expired now in
     commit_delete deleted.2 ;;
     ret deleted.1)
    (fun e => rollback ;; ret 0).

End Service.

End CodeService.

(** ** Sequences of invocations *)

Inductive call :=
| Generate (document_number : string)
| Resend (document_number : string)
| Validate (document_number code : string)
| Cleanup.

Section Trace.
Context {argon2 : Argon2}.
Variable settings : Settings.

(** The rows an invocation leaves committed, whatever it returns. *)
Definition step (rows : gmap Z CodeVerification.t) (c : call * Env)
    : gmap Z CodeVerification.t :=
  match c.1 with
  | Generate d => (run (CodeService.generate_code settings d false) c.2 rows).2
  | Resend d => (run (CodeService.resend_code settings d) c.2 rows).2
  | Validate d code => (run (CodeService.validate_code d code) c.2 rows).2
  | Cleanup => (run CodeService.cleanup_expired_codes c.2 rows).2
  end.

Definition exec (calls : list (call * Env)) (rows : gmap Z CodeVerification.t)
    : gmap Z CodeVerification.t :=
  fold_left step calls rows.

End Trace.

(** A generate or resend whose document number is the integer [key], or is
    not ASCII text, for which [int()] is not modelled. *)
Definition overwrites (key : Z) (c : call) : Prop :=
  match c with
  | Generate d | Resend d => Py.int d = Some key \/ Py.is_ascii d = false
  | Validate _ _ | Cleanup => False
  end.

(** The row of [key] exists and its code was used. *)
Definition used_at (key : Z) (rows : gmap Z CodeVerification.t) : Prop :=
  exists row, rows !! key = Some row /\ CodeVerification.revoked row <> 0.

(** [m] moves the committed rows along the relation [R], from any state and
    whatever it returns. *)
Definition keeps (R : relation (gmap Z CodeVerification.t)) {A} (m : M A) : Prop :=
  forall env st, R (user_pswr st) (user_pswr (m env st).2).

(** Rows other than the one of [key] are the same. *)
Definition same_but (key : Z) : relation (gmap Z CodeVerification.t) :=
  fun rows rows' => forall k, k <> key -> rows' !! k = rows !! k.

(** A used code of [key] stays used. *)
Definition stays_used (key : Z) : relation (gmap Z CodeVerification.t) :=
  fun rows rows' => used_at key rows -> used_at key rows'.

(** The row a generate or resend leaves under its key: a fresh digest,
    unused, and the two stamps taken from two consecutive readings of the
    clock. [before] is the row the key had. *)
Definition written {argon2 : Argon2} (settings : Settings) (env : Env)
    (is_resend : bool) (before : option CodeVerification.t) (code : string)
    (row : CodeVerification.t) : Prop :=
  CodeVerification.pswr row = argon2_hash (argon2_salt env) code /\
  CodeVerification.revoked row = 0 /\
  is_Some (CodeVerification.correo row) /\
  match before with
  | Some existing =>
      (exists n,
         CodeVerification.time_stamp_generacion row = utcnow_at env n /\
         CodeVerification.time_stamp_vencimiento row =
           utcnow_at env (S n)
           + Py.timedelta_minutes (CODE_EXPIRATION_MINUTES settings)) /\
      CodeVerification.resend_count row =
        (if is_resend then CodeVerification.resend_count existing + 1 else 0)
  | None =>
      (exists n,
         CodeVerification.time_stamp_vencimiento row =
           utcnow_at env n
           + Py.timedelta_minutes (CODE_EXPIRATION_MINUTES settings) /\
         CodeVerification.time_stamp_generacion row = utcnow_at env (S n)) /\
      CodeVerification.resend_count row = 0
  end.

(** The remaining wait in whole minutes, rounded up, for [elapsed]
    microseconds since the last resend. *)
Definition minutes_rounded_up (settings : Settings) (elapsed : Z) : Z :=
  - ((elapsed - CODE_RESEND_DELAY_MINUTES settings * Py.us_per_minute)
     / Py.us_per_minute).

(** ** Concrete data for the examples *)

Module Sample.

(** A stand-in for the hasher in concrete runs: the digest is the code
    itself. *)
Definition plain : Argon2 :=
  {| argon2_hash := fun _ code => code;
     argon2_verify := fun code digest => Some (String.eqb code digest) |}.

Definition ana : User.row :=
  {| User.nro_documento := "123456789";
     User.ds_empleado := Some "Ana";
     User.correo := Some "ana@example.com";
     User.movil := Some "3001234567";
     User.ds_cargo := Some "Analista";
     User.cod_oficina_area := Some "B12";
     User.dt_fin_contrato := None |}.

Definition personal (document_number : string) : option User.row :=
  if String.eqb document_number "123456789" then Some ana else None.

(** An invocation whose clock reads [t0] and then advances by [tick]
    microseconds per reading, with no database failure. *)
Definition env (t0 tick : Z) : Env :=
  {| utcnow_at := fun n => t0 + tick * Z.of_nat n;
     db_raises := fun _ => false;
     db_error := fun _ => "OperationalError";
     stg_personal := personal;
     secrets_choice := fun n => n;
     argon2_salt := "s" |}.

(** The same invocation when the [n]-th database call raises. *)
Definition failing (n : nat) (t0 : Z) : Env :=
  {| utcnow_at := fun _ => t0;
     db_raises := Nat.eqb n;
     db_error := fun _ => "OperationalError";
     stg_personal := personal;
     secrets_choice := fun n => n;
     argon2_salt := "s" |}.

Definition minute : Z := 60000000.

Definition row (revoked resend_count : Z) (issued : Z) (last : option Z)
    : CodeVerification.t :=
  {| CodeVerification.id := 123456789;
     CodeVerification.correo := Some "ana@example.com";
     CodeVerification.movil := 3001234567;
     CodeVerification.pswr := "012345";
     CodeVerification.time_stamp_generacion := issued;
     CodeVerification.time_stamp_vencimiento := issued + 30 * minute;
     CodeVerification.revoked := revoked;
     CodeVerification.resend_count := resend_count;
     CodeVerification.last_resend_at := last |}.

Definition table (r : CodeVerification.t) : gmap Z CodeVerification.t :=
  {[ 123456789 := r ]}.

(** A stand-in hasher whose [verify] raises on an empty digest. *)
Definition strict : Argon2 :=
  {| argon2_hash := fun _ code => code;
     argon2_verify := fun code digest =>
       match digest with
       | EmptyString => None
       | _ => Some (String.eqb code digest)
       end |}.

(** An unused row issued at 0 whose stored digest is empty. *)
Definition blank : CodeVerification.t :=
  {| CodeVerification.id := 123456789;
     CodeVerification.correo := Some "ana@example.com";
     CodeVerification.movil := 3001234567;
     CodeVerification.pswr := "";
     CodeVerification.time_stamp_generacion := 0;
     CodeVerification.time_stamp_vencimiento := 30 * minute;
     CodeVerification.revoked := 0;
     CodeVerification.resend_count := 0;
     CodeVerification.last_resend_at := None |}.

End Sample.

(** ** [app/schemas/auth.py]: the validators of the request bodies *)

Module Schema.

Definition is_digit (c : ascii) : bool :=
  match Py.digit_of c with
  | Some _ => true
  | None => false
  end.



(** [n] digits at the head of [v], and what follows them. *)
Fixpoint digits_then (n : nat) (v : string) : option string :=
  match n, v with
  | O, _ => Some v
  | S n', String c v' => if is_digit c then digits_then n' v' else None
  | S _, EmptyString => None
  end.

(** [validate_code]: [re.match(r'^\d{6}$', v)], where [$] matches at the
    end of the string and before a newline that ends it. *)
Definition validate_code (v : string) : option string :=
  match digits_then 6 v with
  | Some EmptyString => Some v
  | Some (String "010" EmptyString) => Some v
  | _ => None
  end.

End Schema.

(** ** [app/api/v1/auth.py]: the three routes *)

(** A value of a response dict. *)
Inductive value :=
| Str (s : string)
| Int (n : Z)
| Null.

Definition of_optional (s : option string) : value :=
  match s with
  | Some s => Str s
  | None => Null
  end.

Module ApiResponse.
Record t := {
  success : bool;
  message : string;
  data : option (list (string * value))
}.
End ApiResponse.

Module Api.

(** [s.split("@")[1]]: what lies between the first and the second ["@"];
    [None] stands for the [IndexError] of a string without ["@"]. *)
Fixpoint until_at (s : string) : string :=
  match s with
  | EmptyString => EmptyString
  | String c s' => if Ascii.eqb c "@" then EmptyString else String c (until_at s')
  end.

Fixpoint second_part (s : string) : option string :=
  match s with
  | EmptyString => None
  | String c s' => if Ascii.eqb c "@" then Some (until_at s') else second_part s'
  end.

(** [correo[:3] + "***@" + correo.split("@")[1] if correo else None] *)
Definition email_hint (correo : option string) : M value :=
  if Py.truthy correo then
    let correo := default "" correo in
    match second_part correo with
    | Some domain => ret (Str (Py.take_chars 3 correo ++ "***@" ++ domain))
    | None => raise (Exception "list index out of range")
    end
  else ret Null.

Section Routes.
Context {argon2 : Argon2}.
Variable settings : Settings.
(** [settings.DEBUG], and what [EmailService.send_verification_code]
    answers: it returns a boolean and never raises. *)
Variables (DEBUG email_sent : bool).

Definition debug_entry (code : string) : list (string * value) :=
  if DEBUG then [("code_debug", Str code)] else [].

(** [request_code], for the document number the schema returned. *)
Definition request_code (document_number : string) : M ApiResponse.t :=
  try_except
    (let* result := CodeService.generate_code settings document_number false in
     let _ := email_sent in
     let* hint := email_hint (Generated.correo result) in
     ret {| ApiResponse.success := true;
            ApiResponse.message :=
              "Código de verificación enviado al correo electrónico registrado.";
            ApiResponse.data := Some
              ([ ("document_number", Str document_number);
                 ("nombre", of_optional (Generated.nombre result));
                 ("email_hint", hint);
                 ("expires_in_minutes", Int (CODE_EXPIRATION_MINUTES settings)) ]
               ++ debug_entry (Generated.code result))%list |})
    (fun e =>
       match e with
       | HTTPException _ _ => raise e
       | Exception message =>
           raise (HTTPException 500 ("Error al solicitar código: " ++ message))
       end).

(** [verify_code], for the document number and code the schema returned. *)
Definition verify_code (document_number code : string) : M ApiResponse.t :=
  let* result := CodeService.validate_code document_number code in
  if negb (Validation.success result) then
    raise (HTTPException 401 (Validation.message result))
  else
    ret {| ApiResponse.success := true;
           ApiResponse.message := "Código verificado correctamente. Acceso permitido.";
           ApiResponse.data :=
             (fun p =>
                [ ("document_number", Str (Profile.document_number p));
                  ("nombre", of_optional (Profile.nombre p));
                  ("correo", of_optional (Profile.correo p));
                  ("cargo", of_optional (Profile.cargo p));
                  ("oficina", of_optional (Profile.oficina p)) ])
             <$> Validation.data result |}.

(** [resend_code], for the document number the schema returned. *)
Definition resend_code (document_number : string) : M ApiResponse.t :=
  try_except
    (let* result := CodeService.resend_code settings document_number in
     let _ := email_sent in
     ret {| ApiResponse.success := true;
            ApiResponse.message :=
              "Nuevo código de verificación enviado al correo electrónico registrado.";
            ApiResponse.data := Some
              ([ ("document_number", Str document_number);
                 ("expires_in_minutes", Int (CODE_EXPIRATION_MINUTES settings)) ]
               ++ debug_entry (Generated.code result))%list |})
    (fun e =>
       match e with
       | HTTPException _ _ => raise e
       | Exception message =>
           raise (HTTPException 500 ("Error al reenviar código: " ++ message))
       end).

End Routes.

End Api.

(** ** Further predicates on tables and invocations *)

(** What every stored row satisfies: it sits under its own [id], its
    NOT NULL [correo] is set, [revoked] is 0 or 1 and the resend counter is
    not negative. *)
Definition row_ok (k : Z) (row : CodeVerification.t) : Prop :=
  CodeVerification.id row = k /\
  is_Some (CodeVerification.correo row) /\
  (CodeVerification.revoked row = 0 \/ CodeVerification.revoked row = 1) /\
  0 <= CodeVerification.resend_count row.

Definition table_ok (rows : gmap Z CodeVerification.t) : Prop :=
  map_Forall row_ok rows.

(** An invocation that raises has committed nothing. *)
Definition raises_clean {A} (m : M A) : Prop :=
  forall env st e st', m env st = (Raise e, st') -> user_pswr st' = user_pswr st.

(** The details of the two refusals of [generate_code]. *)
Definition msg_unknown : string := "Usuario no encontrado en la base de datos.".
Definition msg_inactive : string :=
  "El usuario no está activo debido a la finalización del contrato.".

(** Every exception [m] can raise satisfies [P]. *)
Definition raises_only (P : exn -> Prop) {A} (m : M A) : Prop :=
  forall env st e st', m env st = (Raise e, st') -> P e.

(** An exception that is not an [HTTPException]. *)
Definition plain_exception (e : exn) : Prop :=
  match e with
  | Exception _ => True
  | HTTPException _ _ => False
  end.

(** Two exceptions a caller cannot tell apart but for the text of a 500:
    the same status, and the same detail unless the status is 500, whose
    detail quotes the database error. *)
Definition alike (e1 e2 : exn) : Prop :=
  match e1, e2 with
  | HTTPException s1 d1, HTTPException s2 d2 => s1 = s2 /\ (s1 <> 500 -> d1 = d2)
  | Exception _, Exception _ => True
  | _, _ => False
  end.

(** Two outcomes agree: both return, with values related by [Rv], or both
    raise exceptions that are [alike]; with [same_state], they also end in
    the same state. *)
Definition agree {A} (Rv : A -> A -> Prop) (same_state : bool)
    (o1 o2 : result A * State) : Prop :=
  match o1.1, o2.1 with
  | Return a1, Return a2 => Rv a1 a2
  | Raise e1, Raise e2 => alike e1 e2
  | _, _ => False
  end /\ (same_state = true -> o1.2 = o2.2).

(** [m1] in [env1] and [m2] in [env2] agree from every common state. *)
Definition sim (env1 env2 : Env) {A} (Rv : A -> A -> Prop) (same_state : bool)
    (m1 m2 : M A) : Prop :=
  forall st, agree Rv same_state (m1 env1 st) (m2 env2 st).

(** Two results of [generate_code] that name the same person. *)
Definition same_contact (g1 g2 : Generated.t) : Prop :=
  Generated.correo g1 = Generated.correo g2 /\
  Generated.nombre g1 = Generated.nombre g2.

(** A string of decimal digits only. *)
Fixpoint all_digits (s : string) : bool :=
  match s with
  | EmptyString => true
  | String c s' => Schema.is_digit c && all_digits s'
  end.

(** The code [draw_code] returns in [env]. *)
Definition drawn (env : Env) : string :=
  string_of_list_ascii
    (List.map (fun i => CodeService.digit_char (secrets_choice env i)) (seq 0 6)).

(** The environment [env] with other randomness -- the draws of
    [secrets.choice] and the salt of the hasher -- and other texts of the
    database errors. *)
Definition with_draws (choices : nat -> nat) (salt : string)
    (errors : nat -> string) (env : Env) : Env :=
  {| utcnow_at := utcnow_at env;
     db_raises := db_raises env;
     db_error := errors;
     stg_personal := stg_personal env;
     secrets_choice := choices;
     argon2_salt := salt |}.

(** * Properties *)

(** ** How invocations unfold *)

Ltac unfold_service :=
  unfold CodeService.generate_code, CodeService.validate_code,
    CodeService.resend_code, CodeService.cleanup_expired_codes,
    CodeService.overwrite, CodeService.hash_code, CodeService.draw_code,
    CodeService.int in *.

Ltac unfold_session :=
  unfold commit_new, commit_dirty, commit_delete, delete_expired,
    select_personal, query_first, rollback, db_call, db_failure, utcnow,
    try_except, bind, ret, raise in *.

Ltac unfold_run := unfold run; unfold_service; unfold_session.

Lemma bind_Return {A B} (m : M A) (k : A -> M B) env st b st' :
  bind m k env st = (Return b, st') ->
  exists a st1, m env st = (Return a, st1) /\ k a env st1 = (Return b, st').
Proof.
  unfold bind. destruct (m env st) as [[a|e] st1]; intros H.
  - exists a, st1. split; [reflexivity | exact H].
  - discriminate H.
Qed.

Lemma try_except_Return {A} (m : M A) h env st a st' :
  (forall e env1 st1, (h e env1 st1).1 <> Return a) ->
  try_except m h env st = (Return a, st') ->
  m env st = (Return a, st').
Proof.
  unfold try_except. intros Hh. destruct (m env st) as [[a1|e] st1]; intros H.
  - exact H.
  - exfalso. apply (Hh e env st1). rewrite H. reflexivity.
Qed.

(** ** The paths of [validate_code] *)

Section Validate.
Context {argon2 : Argon2}.
Variables (env : Env) (rows : gmap Z CodeVerification.t).
Variables (document_number code : string) (key : Z).
Hypothesis Hkey : Py.int document_number = Some key.
Hypothesis Hquery : db_raises env 0%nat = false.

Lemma validate_code_not_found :
  rows !! key = None ->
  run (CodeService.validate_code document_number code) env rows =
  (Return (Validation.failure CodeService.msg_not_found), rows).
Proof.
  intros Hrow. unfold_run. rewrite Hkey. simpl. rewrite Hquery. simpl.
  rewrite Hrow. reflexivity.
Qed.

Lemma validate_code_already_used row :
  rows !! key = Some row ->
  CodeVerification.revoked row <> 0 ->
  run (CodeService.validate_code document_number code) env rows =
  (Return (Validation.failure CodeService.msg_already_used), rows).
Proof.
  intros Hrow Hused. unfold_run. rewrite Hkey. simpl. rewrite Hquery. simpl.
  rewrite Hrow. apply Z.eqb_neq in Hused. rewrite Hused. reflexivity.
Qed.

Lemma validate_code_expired row :
  rows !! key = Some row ->
  CodeVerification.revoked row = 0 ->
  CodeVerification.time_stamp_vencimiento row < utcnow_at env 0 ->
  run (CodeService.validate_code document_number code) env rows =
  (Return (Validation.failure CodeService.msg_expired), rows).
Proof.
  intros Hrow Hunused Hlate. unfold_run. rewrite Hkey. simpl. rewrite Hquery. simpl.
  rewrite Hrow, Hunused. simpl. apply Z.ltb_lt in Hlate. rewrite Hlate. reflexivity.
Qed.

Lemma validate_code_incorrect row :
  rows !! key = Some row ->
  CodeVerification.revoked row = 0 ->
  utcnow_at env 0 <= CodeVerification.time_stamp_vencimiento row ->
  CodeService.verify_code_hash code (CodeVerification.pswr row) = false ->
  run (CodeService.validate_code document_number code) env rows =
  (Return (Validation.failure CodeService.msg_incorrect), rows).
Proof.
  intros Hrow Hunused Hintime Hwrong. unfold_run. rewrite Hkey. simpl.
  rewrite Hquery. simpl. rewrite Hrow, Hunused. simpl.
  apply Z.ltb_ge in Hintime. rewrite Hintime, Hwrong. reflexivity.
Qed.

(** When every check passes the call either raises or reports success;
    once the commit went through the row is marked used either way. *)
Lemma validate_code_passed row :
  rows !! key = Some row ->
  CodeVerification.revoked row = 0 ->
  utcnow_at env 0 <= CodeVerification.time_stamp_vencimiento row ->
  CodeService.verify_code_hash code (CodeVerification.pswr row) = true ->
  let out := run (CodeService.validate_code document_number code) env rows in
  (exists e, out = (Raise e, rows)) \/
  (exists e, out = (Raise e, <[key := CodeVerification.mark_as_revoked row]> rows)) \/
  (out = (Return
            {| Validation.success := true;
               Validation.message := CodeService.msg_verified;
               Validation.data := Some
                 {| Profile.document_number := document_number;
                    Profile.nombre := stg_personal env document_number ≫= User.ds_empleado;
                    Profile.correo := stg_personal env document_number ≫= User.correo;
                    Profile.cargo := stg_personal env document_number ≫= User.ds_cargo;
                    Profile.oficina := stg_personal env document_number ≫= User.cod_oficina_area |} |},
          <[key := CodeVerification.mark_as_revoked row]> rows) /\
   is_Some (CodeVerification.correo row) /\
   db_raises env 1%nat = false /\ db_raises env 2%nat = false).
Proof.
  intros Hrow Hunused Hintime Hright. unfold_run. rewrite Hkey. simpl.
  rewrite Hquery. simpl. rewrite Hrow, Hunused. simpl.
  apply Z.ltb_ge in Hintime. rewrite Hintime, Hright. simpl.
  destruct (CodeVerification.correo row) as [c|]; simpl.
  - destruct (db_raises env 1%nat); simpl; [left; eauto|].
    destruct (db_raises env 2%nat); simpl; [right; left; eauto|].
    right; right. eauto.
  - destruct (db_raises env 1%nat); simpl; left; eauto.
Qed.

End Validate.

(** ** The sweep *)

Lemma cleanup_expired_codes_run env rows :
  run CodeService.cleanup_expired_codes env rows =
  if db_raises env 0%nat || db_raises env 1%nat then (Return 0, rows)
  else (Return (Z.of_nat (size (filter (expired_unused (utcnow_at env 0)) rows))),
        filter (fun kv => ~ expired_unused (utcnow_at env 0) kv) rows).
Proof.
  unfold_run. simpl.
  destruct (db_raises env 0%nat); simpl; [reflexivity|].
  destruct (db_raises env 1%nat); reflexivity.
Qed.

Lemma size_filter_split (P : Z * CodeVerification.t -> Prop)
    `{!forall kv, Decision (P kv)} (rows : gmap Z CodeVerification.t) :
  (size (filter P rows) + size (filter (fun kv => ~ P kv) rows))%nat = size rows.
Proof.
  rewrite <- map_size_disj_union by apply map_disjoint_filter_complement.
  rewrite map_filter_union_complement. reflexivity.
Qed.

(** ** Frames: what an invocation can do to the committed rows *)

Section Frame.
Context (R : relation (gmap Z CodeVerification.t)) `{!PreOrder R}.

Lemma keeps_ret {A} (a : A) : keeps R (ret a).
Proof. intros env st. reflexivity. Qed.

Lemma keeps_raise {A} e : keeps R (@raise A e).
Proof. intros env st. reflexivity. Qed.

Lemma keeps_utcnow : keeps R utcnow.
Proof. intros env st. reflexivity. Qed.

Lemma keeps_bind {A B} (m : M A) (k : A -> M B) :
  keeps R m -> (forall a, keeps R (k a)) -> keeps R (bind m k).
Proof.
  intros Hm Hk env st. unfold bind.
  specialize (Hm env st). destruct (m env st) as [[a|e] st1]; simpl in *.
  - etransitivity; [exact Hm | apply Hk].
  - exact Hm.
Qed.

Lemma keeps_try_except {A} (m : M A) h :
  keeps R m -> (forall e, keeps R (h e)) -> keeps R (try_except m h).
Proof.
  intros Hm Hh env st. unfold try_except.
  specialize (Hm env st). destruct (m env st) as [[a|e] st1]; simpl in *.
  - exact Hm.
  - etransitivity; [exact Hm | apply Hh].
Qed.

Lemma keeps_db_call {A}
    (f : gmap Z CodeVerification.t -> A * gmap Z CodeVerification.t) :
  (forall rows, R rows (f rows).2) -> keeps R (db_call f).
Proof.
  intros Hf env st. unfold db_call.
  destruct (db_raises env (db_calls st)); simpl; [reflexivity|].
  specialize (Hf (user_pswr st)). destruct (f (user_pswr st)); exact Hf.
Qed.

Lemma keeps_query_first k : keeps R (query_first k).
Proof. apply keeps_db_call. reflexivity. Qed.

Lemma keeps_select_personal d : keeps R (select_personal d).
Proof.
  intros env st. unfold select_personal.
  apply (keeps_db_call (fun rows => (stg_personal env d, rows))). reflexivity.
Qed.

Lemma keeps_int d : keeps R (CodeService.int d).
Proof.
  unfold CodeService.int. destruct (Py.int d); [apply keeps_ret | apply keeps_raise].
Qed.

Lemma keeps_int_bind {B} d (k : Z -> M B) :
  (forall key, Py.int d = Some key -> keeps R (k key)) ->
  keeps R (bind (CodeService.int d) k).
Proof.
  intros Hk env st. unfold bind, CodeService.int.
  destruct (Py.int d) as [key|] eqn:E; simpl; [apply Hk; reflexivity | reflexivity].
Qed.

Lemma keeps_draw_code : keeps R CodeService.draw_code.
Proof. intros env st. reflexivity. Qed.

Lemma keeps_hash_code {argon2 : Argon2} code : keeps R (CodeService.hash_code code).
Proof. intros env st. reflexivity. Qed.

Lemma keeps_commit_dirty k row :
  (forall rows, R rows (<[k:=row]> rows)) -> keeps R (commit_dirty k row).
Proof.
  intros H. unfold commit_dirty. destruct (CodeVerification.correo row).
  - apply keeps_db_call. intros rows. apply H.
  - intros env st. reflexivity.
Qed.

Lemma keeps_overwrite {argon2 : Argon2} settings existing user movil hashed b :
  keeps R (CodeService.overwrite settings existing user movil hashed b).
Proof.
  unfold CodeService.overwrite.
  apply keeps_bind; [apply keeps_utcnow | intros now_g].
  apply keeps_bind; [apply keeps_utcnow | intros now_v].
  destruct b; [|apply keeps_ret].
  apply keeps_bind; [apply keeps_utcnow | intros now_r]. apply keeps_ret.
Qed.

(** [generate_code] writes at most the row of its own document number. *)
Lemma keeps_generate_code {argon2 : Argon2} settings d b :
  (forall key row, Py.int d = Some key -> forall rows, R rows (<[key:=row]> rows)) ->
  keeps R (CodeService.generate_code settings d b).
Proof.
  intros Hwrite. unfold CodeService.generate_code.
  apply keeps_try_except.
  2: { intros [s m|m]; [apply keeps_raise|].
       apply keeps_bind; [apply keeps_ret | intros; apply keeps_raise]. }
  apply keeps_bind; [apply keeps_select_personal | intros [user|]].
  2: apply keeps_raise.
  apply keeps_bind.
  { destruct (User.dt_fin_contrato user); [|apply keeps_ret].
    apply keeps_bind; [apply keeps_utcnow | intros; apply keeps_ret]. }
  intros [|]; [apply keeps_raise|].
  apply keeps_bind; [apply keeps_draw_code | intros code].
  apply keeps_bind; [apply keeps_hash_code | intros hashed].
  apply keeps_bind.
  { destruct (Py.truthy (User.movil user)); [apply keeps_int | apply keeps_ret]. }
  intros movil_int.
  apply keeps_int_bind. intros key Hkey.
  apply keeps_bind; [apply keeps_query_first | intros existing].
  apply keeps_bind; [|intros; apply keeps_ret].
  destruct existing as [existing|].
  - apply keeps_bind; [apply keeps_overwrite | intros row].
    apply keeps_commit_dirty. apply Hwrite, Hkey.
  - apply keeps_bind; [apply keeps_utcnow | intros now_e].
    apply keeps_bind; [apply keeps_utcnow | intros now_g].
    apply keeps_commit_dirty. apply Hwrite, Hkey.
Qed.

Lemma keeps_resend_code {argon2 : Argon2} settings d :
  (forall key row, Py.int d = Some key -> forall rows, R rows (<[key:=row]> rows)) ->
  keeps R (CodeService.resend_code settings d).
Proof.
  intros Hwrite. unfold CodeService.resend_code.
  apply keeps_try_except; [|intros [s m|m]; apply keeps_raise].
  apply keeps_bind; [apply keeps_int | intros key].
  apply keeps_bind; [apply keeps_query_first | intros existing].
  apply keeps_bind; [|intros; apply keeps_generate_code, Hwrite].
  destruct existing as [existing|]; [|apply keeps_ret].
  apply keeps_bind; [apply keeps_utcnow | intros now].
  destruct (CodeVerification.can_resend settings existing now) as [[can msg] after].
  destruct can; [apply keeps_ret | apply keeps_raise].
Qed.

(** [validate_code] writes at most a row marked used, under the key of
    its document number. *)
Lemma keeps_validate_code {argon2 : Argon2} d code :
  (forall key row, Py.int d = Some key ->
     forall rows, R rows (<[key:=CodeVerification.mark_as_revoked row]> rows)) ->
  keeps R (CodeService.validate_code d code).
Proof.
  intros Hwrite. unfold CodeService.validate_code.
  apply keeps_try_except.
  2: { intros e. apply keeps_bind; [apply keeps_ret | intros; apply keeps_raise]. }
  apply keeps_int_bind. intros key Hkey.
  apply keeps_bind; [apply keeps_query_first | intros [row|]]; [|apply keeps_ret].
  destruct (negb _); [apply keeps_ret|].
  apply keeps_bind; [apply keeps_utcnow | intros now].
  destruct (_ <? _); [apply keeps_ret|].
  destruct (negb _); [apply keeps_ret|].
  apply keeps_bind; [apply keeps_commit_dirty, Hwrite, Hkey | intros _].
  apply keeps_bind; [apply keeps_select_personal | intros; apply keeps_ret].
Qed.

End Frame.

#[local] Instance same_but_preorder key : PreOrder (same_but key).
Proof.
  split.
  - intros rows k _. reflexivity.
  - intros r1 r2 r3 H12 H23 k Hk. rewrite (H23 k Hk). apply H12, Hk.
Qed.

#[local] Instance stays_used_preorder key : PreOrder (stays_used key).
Proof.
  split.
  - intros rows H. exact H.
  - intros r1 r2 r3 H12 H23 H. apply H23, H12, H.
Qed.

Lemma same_but_insert key row rows : same_but key rows (<[key:=row]> rows).
Proof. intros k Hk. apply lookup_insert_ne. congruence. Qed.

Lemma stays_used_insert_other key k row rows :
  k <> key -> stays_used key rows (<[k:=row]> rows).
Proof.
  intros Hk [r [Hr Hu]]. exists r. split; [|exact Hu].
  rewrite lookup_insert_ne; [exact Hr | exact Hk].
Qed.

Lemma stays_used_insert_revoked key k row rows :
  stays_used key rows (<[k:=CodeVerification.mark_as_revoked row]> rows).
Proof.
  intros [r [Hr Hu]]. destruct (decide (k = key)) as [->|Hk].
  - exists (CodeVerification.mark_as_revoked row). split.
    + apply lookup_insert_eq.
    + simpl. discriminate.
  - exists r. split; [|exact Hu]. rewrite lookup_insert_ne; [exact Hr | exact Hk].
Qed.

Lemma stays_used_cleanup key env rows :
  stays_used key rows (run CodeService.cleanup_expired_codes env rows).2.
Proof.
  rewrite cleanup_expired_codes_run. intros [r [Hr Hu]].
  destruct (_ || _); simpl; [exists r; auto|].
  exists r. split; [|exact Hu].
  apply map_lookup_filter_Some. split; [exact Hr|].
  unfold expired_unused. simpl. tauto.
Qed.

Lemma keeps_run (R : relation (gmap Z CodeVerification.t)) {A} (m : M A) env rows :
  keeps R m -> R rows (run m env rows).2.
Proof.
  intros H. unfold run.
  specialize (H env {| user_pswr := rows; utc_reads := 0; db_calls := 0 |}).
  destruct (m env _) as [r st]. exact H.
Qed.

Lemma step_stays_used {argon2 : Argon2} settings key rows (c : call * Env) :
  ~ overwrites key c.1 -> stays_used key rows (step settings rows c).
Proof.
  destruct c as [[d|d|d code|] env]; unfold step; simpl; intros Hc.
  - apply keeps_run, keeps_generate_code; [apply _|].
    intros k row Hk rows0. apply stays_used_insert_other.
    intros ->. apply Hc. left. exact Hk.
  - apply keeps_run, keeps_resend_code; [apply _|].
    intros k row Hk rows0. apply stays_used_insert_other.
    intros ->. apply Hc. left. exact Hk.
  - apply keeps_run, keeps_validate_code; [apply _|].
    intros k row Hk rows0. apply stays_used_insert_revoked.
  - apply stays_used_cleanup.
Qed.

Lemma exec_stays_used {argon2 : Argon2} settings key calls rows :
  Forall (fun c : call * Env => ~ overwrites key c.1) calls ->
  stays_used key rows (exec settings calls rows).
Proof.
  intros Hcalls. revert rows.
  induction Hcalls as [|c calls Hc _ IH]; intros rows; simpl.
  - intros H. exact H.
  - intros H. apply IH. apply step_stays_used; assumption.
Qed.

(** What a successful validation did to the rows. *)
Lemma validate_code_success {argon2 : Argon2} env rows rows1 document_number code key r :
  Py.int document_number = Some key ->
  run (CodeService.validate_code document_number code) env rows = (Return r, rows1) ->
  Validation.success r = true ->
  exists row, rows !! key = Some row /\ CodeVerification.revoked row = 0 /\
    utcnow_at env 0 <= CodeVerification.time_stamp_vencimiento row /\
    CodeService.verify_code_hash code (CodeVerification.pswr row) = true /\
    rows1 = <[key := CodeVerification.mark_as_revoked row]> rows.
Proof.
  intros Hkey Hrun Hsuccess.
  destruct (db_raises env 0%nat) eqn:Hquery.
  { revert Hrun. unfold_run. rewrite Hkey. simpl. rewrite Hquery. discriminate. }
  destruct (rows !! key) as [row|] eqn:Hrow.
  2: { rewrite (validate_code_not_found env rows _ code key Hkey Hquery Hrow) in Hrun.
       injection Hrun as <- _. discriminate Hsuccess. }
  destruct (decide (CodeVerification.revoked row = 0)) as [Hunused|Hused].
  2: { rewrite (validate_code_already_used env rows _ code key Hkey Hquery row Hrow Hused) in Hrun.
       injection Hrun as <- _. discriminate Hsuccess. }
  destruct (decide (CodeVerification.time_stamp_vencimiento row < utcnow_at env 0)) as [Hlate|Hintime].
  { rewrite (validate_code_expired env rows _ code key Hkey Hquery row Hrow Hunused Hlate) in Hrun.
    injection Hrun as <- _. discriminate Hsuccess. }
  apply Z.nlt_ge in Hintime.
  destruct (CodeService.verify_code_hash code (CodeVerification.pswr row)) eqn:Hverify.
  2: { rewrite (validate_code_incorrect env rows _ code key Hkey Hquery row Hrow Hunused Hintime Hverify) in Hrun.
       injection Hrun as <- _. discriminate Hsuccess. }
  exists row. split; [reflexivity|]. do 3 (split; [assumption|]).
  destruct (validate_code_passed env rows _ code key Hkey Hquery row Hrow Hunused Hintime Hverify)
    as [[e He]|[[e He]|[Hout _]]]; rewrite Hrun in *.
  - discriminate He.
  - discriminate He.
  - injection Hout as _ Hrows. exact Hrows.
Qed.

(** ** C1 *)

(** C1. Once [validate_code] succeeds for an identity, the row of that
    identity has [revoked = 1], and this is terminal: after any further
    invocations that are not a generate or resend for the identity (sweeps,
    validations of any identity, generates and resends of other identities;
    a generate or resend whose document number is not ASCII text counts as
    one for the identity),
    with any clock and any database failures, every validation for the
    identity -- under any spelling of the document number, with any code,
    the correct one included, at any time -- that reaches the table answers
    that the code was already used, and leaves the rows as they are. *)
Theorem validate_code_used_is_terminal {argon2 : Argon2} (settings : Settings)
    (env : Env) (rows rows1 : gmap Z CodeVerification.t)
    (document_number code : string) (key : Z) (r : Validation.t) :
  Py.int document_number = Some key ->
  run (CodeService.validate_code document_number code) env rows = (Return r, rows1) ->
  Validation.success r = true ->
  (exists row, rows1 !! key = Some row /\ CodeVerification.revoked row = 1) /\
  forall later : list (call * Env),
    Forall (fun c : call * Env => ~ overwrites key c.1) later ->
    forall (env2 : Env) (document_number2 code2 : string),
      Py.int document_number2 = Some key ->
      db_raises env2 0%nat = false ->
      run (CodeService.validate_code document_number2 code2) env2
          (exec settings later rows1) =
      (Return (Validation.failure CodeService.msg_already_used),
       exec settings later rows1).
Proof.
  intros Hkey Hrun Hsuccess.
  destruct (validate_code_success env rows rows1 _ code key r Hkey Hrun Hsuccess)
    as (row & Hrow & _ & _ & _ & ->).
  split.
  - exists (CodeVerification.mark_as_revoked row). split; [apply lookup_insert_eq | reflexivity].
  - intros later Hlater env2 d2 code2 Hkey2 Hquery2.
    destruct (exec_stays_used settings key later
                (<[key := CodeVerification.mark_as_revoked row]> rows) Hlater)
      as (row2 & Hrow2 & Hused2).
    { exists (CodeVerification.mark_as_revoked row).
      split; [apply lookup_insert_eq | discriminate]. }
    apply (validate_code_already_used env2 _ d2 code2 key Hkey2 Hquery2 row2 Hrow2 Hused2).
Qed.

Lemma validate_code_used_is_terminal_witness :
  let first := run (CodeService.validate_code (argon2 := Sample.plain) "123456789" "012345")
                 (Sample.env Sample.minute 1)
                 (Sample.table (Sample.row 0 0 0 None)) in
  let later := [ (Cleanup, Sample.env (100 * Sample.minute) 1);
                 (Validate "123456789" "012345", Sample.env (2 * Sample.minute) 1);
                 (Generate "42", Sample.env (3 * Sample.minute) 1) ] in
  Validation.success <$> (match first.1 with Return r => Some r | Raise _ => None end) = Some true /\
  run (CodeService.validate_code (argon2 := Sample.plain) "0123456789" "012345")
      (Sample.env (4 * Sample.minute) 1)
      (exec (argon2 := Sample.plain) default_settings later first.2) =
  (Return (Validation.failure CodeService.msg_already_used),
   exec (argon2 := Sample.plain) default_settings later first.2).
Proof.
  split; [reflexivity|].
  eapply (validate_code_used_is_terminal (argon2 := Sample.plain) default_settings
            (Sample.env Sample.minute 1) (Sample.table (Sample.row 0 0 0 None)) _
            "123456789" "012345" 123456789).
  - reflexivity.
  - reflexivity.
  - reflexivity.
  - constructor; [intros H; exact H|].
    constructor; [intros H; exact H|].
    constructor; [|constructor].
    intros [H|H]; vm_compute in H; discriminate H.
  - reflexivity.
  - reflexivity.
Defined.

(** ** C2 *)

(** C2. For a document number that is the integer [key] and a lookup that
    does not raise, [validate_code] decides in this order: no row of [key]
    gives "not found"; otherwise a used row gives "already used", whether
    or not it is also expired; otherwise an expired row gives "expired";
    otherwise a code the hasher rejects gives "incorrect".  "Incorrect" is
    answered only for an unused, unexpired row, and two rejected codes get
    the same outcome, whatever digits they share with the right one.  No
    failed check changes the rows. *)
Theorem validate_code_check_order {argon2 : Argon2} (env : Env)
    (rows : gmap Z CodeVerification.t) (document_number code : string) (key : Z) :
  Py.int document_number = Some key ->
  db_raises env 0%nat = false ->
  let now := utcnow_at env 0 in
  let validate c := run (CodeService.validate_code document_number c) env rows in
  (rows !! key = None ->
   validate code = (Return (Validation.failure CodeService.msg_not_found), rows)) /\
  (forall row, rows !! key = Some row ->
     (CodeVerification.revoked row <> 0 ->
      validate code = (Return (Validation.failure CodeService.msg_already_used), rows)) /\
     (CodeVerification.revoked row = 0 ->
      CodeVerification.time_stamp_vencimiento row < now ->
      validate code = (Return (Validation.failure CodeService.msg_expired), rows)) /\
     (CodeVerification.revoked row = 0 ->
      now <= CodeVerification.time_stamp_vencimiento row ->
      CodeService.verify_code_hash code (CodeVerification.pswr row) = false ->
      validate code = (Return (Validation.failure CodeService.msg_incorrect), rows))) /\
  ((validate code).1 = Return (Validation.failure CodeService.msg_incorrect) ->
   exists row, rows !! key = Some row /\
     CodeVerification.revoked row = 0 /\
     now <= CodeVerification.time_stamp_vencimiento row /\
     CodeService.verify_code_hash code (CodeVerification.pswr row) = false) /\
  (forall code',
     (validate code).1 = Return (Validation.failure CodeService.msg_incorrect) ->
     (validate code').1 = Return (Validation.failure CodeService.msg_incorrect) ->
     validate code' = validate code).
Proof.
  intros Hkey Hquery now validate.
  assert (Honly : forall c,
    (validate c).1 = Return (Validation.failure CodeService.msg_incorrect) ->
    exists row, rows !! key = Some row /\
      CodeVerification.revoked row = 0 /\
      now <= CodeVerification.time_stamp_vencimiento row /\
      CodeService.verify_code_hash c (CodeVerification.pswr row) = false).
  { intros c Hout. subst validate. simpl in Hout.
    destruct (rows !! key) as [row|] eqn:Hrow.
    2: { rewrite (validate_code_not_found env rows _ c key Hkey Hquery Hrow) in Hout.
         discriminate Hout. }
    destruct (decide (CodeVerification.revoked row = 0)) as [Hunused|Hused].
    2: { rewrite (validate_code_already_used env rows _ c key Hkey Hquery row Hrow Hused) in Hout.
         discriminate Hout. }
    destruct (decide (CodeVerification.time_stamp_vencimiento row < now)) as [Hlate|Hintime].
    { rewrite (validate_code_expired env rows _ c key Hkey Hquery row Hrow Hunused Hlate) in Hout.
      discriminate Hout. }
    apply Z.nlt_ge in Hintime.
    destruct (CodeService.verify_code_hash c (CodeVerification.pswr row)) eqn:Hverify.
    { destruct (validate_code_passed env rows _ c key Hkey Hquery row Hrow Hunused Hintime Hverify)
        as [[e He]|[[e He]|[He _]]]; rewrite He in Hout; discriminate Hout. }
    exists row. auto. }
  split; [|split; [|split; [|]]].
  - apply (validate_code_not_found env rows _ code key Hkey Hquery).
  - intros row Hrow. split; [|split].
    + apply (validate_code_already_used env rows _ code key Hkey Hquery row Hrow).
    + apply (validate_code_expired env rows _ code key Hkey Hquery row Hrow).
    + apply (validate_code_incorrect env rows _ code key Hkey Hquery row Hrow).
  - apply Honly.
  - intros code' Hc Hc'.
    destruct (Honly code Hc) as (row & Hrow & Hunused & Hintime & Hwrong).
    destruct (Honly code' Hc') as (row' & Hrow' & _ & _ & Hwrong').
    assert (row' = row) as -> by congruence.
    subst validate. simpl.
    rewrite (validate_code_incorrect env rows _ code key Hkey Hquery row Hrow Hunused Hintime Hwrong).
    apply (validate_code_incorrect env rows _ code' key Hkey Hquery row Hrow Hunused Hintime Hwrong').
Qed.

Lemma validate_code_check_order_witness :
  let used_and_expired :=
    Sample.table (Sample.row 1 0 0 None) in
  run (CodeService.validate_code (argon2 := Sample.plain) "123456789" "012345")
      (Sample.env (100 * Sample.minute) 1) used_and_expired =
  (Return (Validation.failure CodeService.msg_already_used), used_and_expired).
Proof.
  apply (validate_code_check_order (argon2 := Sample.plain)
           (Sample.env (100 * Sample.minute) 1)
           (Sample.table (Sample.row 1 0 0 None))
           "123456789" "012345" 123456789 eq_refl eq_refl)
    with (row := Sample.row 1 0 0 None).
  - reflexivity.
  - discriminate.
Defined.

(** ** C9 *)

(** C9. When every check of [validate_code] passes, no database call
    raises, and the personnel table has no row for the document number at
    that moment, the row is marked used all the same and the call reports
    success with [nombre], [correo], [cargo] and [oficina] all null. *)
Theorem validate_code_without_personnel_row {argon2 : Argon2} (env : Env)
    (rows : gmap Z CodeVerification.t) (document_number code : string)
    (key : Z) (row : CodeVerification.t) :
  Py.int document_number = Some key ->
  rows !! key = Some row ->
  is_Some (CodeVerification.correo row) ->
  CodeVerification.revoked row = 0 ->
  utcnow_at env 0 <= CodeVerification.time_stamp_vencimiento row ->
  CodeService.verify_code_hash code (CodeVerification.pswr row) = true ->
  (forall n, db_raises env n = false) ->
  stg_personal env document_number = None ->
  run (CodeService.validate_code document_number code) env rows =
  (Return
     {| Validation.success := true;
        Validation.message := CodeService.msg_verified;
        Validation.data := Some
          {| Profile.document_number := document_number;
             Profile.nombre := None;
             Profile.correo := None;
             Profile.cargo := None;
             Profile.oficina := None |} |},
   <[key := CodeVerification.mark_as_revoked row]> rows) /\
  CodeVerification.revoked (CodeVerification.mark_as_revoked row) = 1.
Proof.
  intros Hkey Hrow [c Hc] Hunused Hintime Hright Hdb Hno. split; [|reflexivity].
  unfold_run. rewrite Hkey. simpl. rewrite Hdb. simpl.
  rewrite Hrow, Hunused. simpl.
  apply Z.ltb_ge in Hintime. rewrite Hintime, Hright. simpl.
  rewrite Hc. simpl. rewrite Hdb. simpl. rewrite Hdb, Hno. reflexivity.
Qed.

Lemma validate_code_without_personnel_row_witness :
  (run (CodeService.validate_code (argon2 := Sample.plain) "0123456789" "012345")
       (Sample.env Sample.minute 1) (Sample.table (Sample.row 0 0 0 None))).1 =
  Return
    {| Validation.success := true;
       Validation.message := CodeService.msg_verified;
       Validation.data := Some
         {| Profile.document_number := "0123456789";
            Profile.nombre := None;
            Profile.correo := None;
            Profile.cargo := None;
            Profile.oficina := None |} |}.
Proof.
  rewrite (proj1 (validate_code_without_personnel_row (argon2 := Sample.plain)
             (Sample.env Sample.minute 1) (Sample.table (Sample.row 0 0 0 None))
             "0123456789" "012345" 123456789 (Sample.row 0 0 0 None)
             eq_refl eq_refl (ex_intro _ _ eq_refl) eq_refl
             ltac:(vm_compute; discriminate) eq_refl (fun _ => eq_refl) eq_refl)).
  reflexivity.
Defined.

(** ** C4 *)

(** C4, as stated, fails: a used row whose expiry lies in the past at the
    moment the sweep reads the clock is not deleted.  Here the row expired
    70 minutes before the sweep and has [revoked = 1]; the sweep deletes
    nothing and the row is still there. *)
Lemma cleanup_keeps_used_expired_row :
  let row := Sample.row 1 0 0 None in
  let env := Sample.env (100 * Sample.minute) 1 in
  CodeVerification.time_stamp_vencimiento row < utcnow_at env 0 /\
  run CodeService.cleanup_expired_codes env (Sample.table row) =
    (Return 0, Sample.table row) /\
  Sample.table row !! 123456789 = Some row.
Proof. split; [reflexivity | split; reflexivity]. Qed.

(** C4, amended. A sweep whose database calls do not raise deletes every
    row that is unused ([revoked = 0]) and whose expiry lies in the past at
    the sweep's reading of the clock, returns the number of rows it deleted,
    and leaves every other row as it is: every row whose expiry is not yet
    passed, and every used row. *)
Theorem cleanup_deletes_expired_unused (env : Env) (rows : gmap Z CodeVerification.t) :
  db_raises env 0%nat = false ->
  db_raises env 1%nat = false ->
  let now := utcnow_at env 0 in
  exists (deleted : Z) (rows' : gmap Z CodeVerification.t),
    run CodeService.cleanup_expired_codes env rows = (Return deleted, rows') /\
    deleted = Z.of_nat (size rows) - Z.of_nat (size rows') /\
    (forall k row, rows !! k = Some row ->
       CodeVerification.time_stamp_vencimiento row < now ->
       CodeVerification.revoked row = 0 ->
       rows' !! k = None) /\
    (forall k row, rows !! k = Some row ->
       now <= CodeVerification.time_stamp_vencimiento row ->
       rows' !! k = Some row) /\
    (forall k row, rows !! k = Some row ->
       CodeVerification.revoked row <> 0 ->
       rows' !! k = Some row) /\
    (forall k, rows !! k = None -> rows' !! k = None).
Proof.
  intros H0 H1 now. rewrite cleanup_expired_codes_run, H0, H1. simpl.
  eexists _, _. split; [reflexivity|].
  split; [|split; [|split; [|split]]].
  - pose proof (size_filter_split (expired_unused (utcnow_at env 0)) rows). lia.
  - intros k row Hrow Hpast Hunused. apply map_lookup_filter_None. right.
    intros row' Hrow' Hkeep. assert (row' = row) as -> by congruence.
    apply Hkeep. split; assumption.
  - intros k row Hrow Hfuture. apply map_lookup_filter_Some. split; [exact Hrow|].
    intros [Hpast _]. simpl in Hpast. subst now. lia.
  - intros k row Hrow Hused. apply map_lookup_filter_Some. split; [exact Hrow|].
    intros [_ Hunused]. simpl in Hunused. contradiction.
  - intros k Hnone. apply map_lookup_filter_None. left. exact Hnone.
Qed.

Lemma cleanup_deletes_expired_unused_witness :
  let unused := Sample.row 0 0 0 None in
  let env := Sample.env (100 * Sample.minute) 1 in
  (run CodeService.cleanup_expired_codes env (Sample.table unused)).2 !! 123456789 = None.
Proof.
  destruct (cleanup_deletes_expired_unused (Sample.env (100 * Sample.minute) 1)
              (Sample.table (Sample.row 0 0 0 None)) eq_refl eq_refl)
    as (deleted & rows' & Hrun & _ & Hdel & _).
  cbv zeta. rewrite Hrun. cbn [snd].
  apply (Hdel 123456789 (Sample.row 0 0 0 None)); reflexivity.
Defined.

(** ** C10 *)

(** C10. [cleanup_expired_codes] always returns a number and never raises.
    When the DELETE or the commit raises it returns 0 and the committed
    rows are what they were; a sweep that works but finds no unused expired
    row returns the same 0 and the same rows, so the caller cannot tell the
    two apart. *)
Theorem cleanup_expired_codes_never_raises (env : Env) (rows : gmap Z CodeVerification.t) :
  (exists (n : Z) (rows' : gmap Z CodeVerification.t),
     run CodeService.cleanup_expired_codes env rows = (Return n, rows')) /\
  (db_raises env 0%nat = true \/ db_raises env 1%nat = true ->
   run CodeService.cleanup_expired_codes env rows = (Return 0, rows)) /\
  (forall env_ok : Env,
     db_raises env_ok 0%nat = false ->
     db_raises env_ok 1%nat = false ->
     (forall k row, rows !! k = Some row -> ~ expired_unused (utcnow_at env_ok 0) (k, row)) ->
     run CodeService.cleanup_expired_codes env_ok rows = (Return 0, rows)).
Proof.
  split; [|split].
  - rewrite cleanup_expired_codes_run. destruct (_ || _); eauto.
  - intros Hfail. rewrite cleanup_expired_codes_run.
    destruct Hfail as [-> | ->]; [reflexivity | rewrite orb_true_r; reflexivity].
  - intros env_ok H0 H1 Hnone. rewrite cleanup_expired_codes_run, H0, H1. simpl.
    rewrite (map_filter_id (fun kv => ~ expired_unused (utcnow_at env_ok 0) kv) rows)
      by exact Hnone.
    assert (filter (expired_unused (utcnow_at env_ok 0)) rows = ∅) as ->.
    { apply map_empty_filter, map_Forall_lookup. exact Hnone. }
    reflexivity.
Qed.

Lemma cleanup_expired_codes_never_raises_witness :
  let expired := Sample.table (Sample.row 0 0 0 None) in
  run CodeService.cleanup_expired_codes (Sample.failing 1 (100 * Sample.minute)) expired =
    (Return 0, expired) /\
  run CodeService.cleanup_expired_codes (Sample.env Sample.minute 1) expired =
    (Return 0, expired).
Proof.
  pose proof (cleanup_expired_codes_never_raises
                (Sample.failing 1 (100 * Sample.minute))
                (Sample.table (Sample.row 0 0 0 None))) as (_ & Hfail & Hnone).
  split.
  - apply Hfail. right. reflexivity.
  - apply Hnone; [reflexivity | reflexivity |].
    intros k row Hrow [Hpast _].
    unfold Sample.table in Hrow. apply lookup_singleton_Some in Hrow as [_ <-]. vm_compute in Hpast. discriminate Hpast.
Defined.

(** ** What a successful [generate_code] wrote *)

Lemma utcnow_Return env st t st1 :
  utcnow env st = (Return t, st1) ->
  t = utcnow_at env (utc_reads st) /\
  user_pswr st1 = user_pswr st /\ utc_reads st1 = S (utc_reads st).
Proof. unfold utcnow. intros [= <- <-]. auto. Qed.

Lemma db_call_Return {A} (f : gmap Z CodeVerification.t -> A * gmap Z CodeVerification.t)
    env st a st1 :
  db_call f env st = (Return a, st1) ->
  a = (f (user_pswr st)).1 /\ user_pswr st1 = (f (user_pswr st)).2 /\
  utc_reads st1 = utc_reads st.
Proof.
  unfold db_call. destruct (db_raises env (db_calls st)); [discriminate|].
  destruct (f (user_pswr st)) as [a' rows']. intros [= <- <-]. auto.
Qed.

Lemma commit_dirty_Return k row env st u st1 :
  commit_dirty k row env st = (Return u, st1) ->
  is_Some (CodeVerification.correo row) /\
  user_pswr st1 = <[k := row]> (user_pswr st).
Proof.
  unfold commit_dirty. destruct (CodeVerification.correo row) as [c|].
  - intros H. apply db_call_Return in H as (_ & H & _). eauto.
  - intros H. discriminate H.
Qed.

Lemma int_Return d env st k st1 :
  CodeService.int d env st = (Return k, st1) -> Py.int d = Some k /\ st1 = st.
Proof.
  unfold CodeService.int. destruct (Py.int d); [|discriminate].
  intros [= <- <-]. auto.
Qed.

Section Generate.
Context {argon2 : Argon2}.
Variable settings : Settings.

Lemma overwrite_Return existing user movil_int hashed b env st row st1 :
  CodeService.overwrite settings existing user movil_int hashed b env st
    = (Return row, st1) ->
  user_pswr st1 = user_pswr st /\
  CodeVerification.correo row = User.correo user /\
  CodeVerification.pswr row = hashed /\
  CodeVerification.revoked row = 0 /\
  CodeVerification.time_stamp_generacion row = utcnow_at env (utc_reads st) /\
  CodeVerification.time_stamp_vencimiento row =
    utcnow_at env (S (utc_reads st))
    + Py.timedelta_minutes (CODE_EXPIRATION_MINUTES settings) /\
  CodeVerification.resend_count row =
    (if b then CodeVerification.resend_count existing + 1 else 0).
Proof.
  unfold CodeService.overwrite. unfold_session.
  destruct b; intros [= <- <-]; simpl; auto 10.
Qed.

Lemma generate_code_Return d b env st g st1 :
  CodeService.generate_code settings d b env st = (Return g, st1) ->
  exists key row,
    Py.int d = Some key /\
    user_pswr st1 = <[key := row]> (user_pswr st) /\
    written settings env b (user_pswr st !! key) (Generated.code g) row.
Proof.
  unfold CodeService.generate_code. intros H.
  apply try_except_Return in H.
  2: { intros [s m|m] env1 st2; unfold_session; discriminate. }
  apply bind_Return in H as (user & s1 & Huser & H).
  apply db_call_Return in Huser as (_ & Hrows1 & _). simpl in Hrows1.
  destruct user as [user|]; [|discriminate H].
  apply bind_Return in H as (ended & s2 & Hended & H).
  assert (user_pswr s2 = user_pswr s1) as Hrows2.
  { destruct (User.dt_fin_contrato user).
    - apply bind_Return in Hended as (now & s & Hnow & Hret).
      apply utcnow_Return in Hnow as (_ & Hnow & _).
      injection Hret as _ <-. exact Hnow.
    - injection Hended as _ <-. reflexivity. }
  destruct ended; [discriminate H|].
  apply bind_Return in H as (code & s3 & Hcode & H).
  injection Hcode as <- <-.
  apply bind_Return in H as (hashed & s4 & Hhash & H).
  injection Hhash as <- <-.
  apply bind_Return in H as (movil_int & s5 & Hmovil & H).
  assert (s5 = s2) as ->.
  { destruct (Py.truthy (User.movil user)).
    - apply int_Return in Hmovil as [_ ->]. reflexivity.
    - injection Hmovil as _ <-. reflexivity. }
  apply bind_Return in H as (key & s6 & Hkey & H).
  apply int_Return in Hkey as [Hkey ->].
  apply bind_Return in H as (existing & s7 & Hquery & H).
  apply db_call_Return in Hquery as (Hexisting & Hrows7 & _). simpl in *.
  apply bind_Return in H as (u & s8 & Hwrite & H).
  injection H as <- <-. simpl.
  assert (user_pswr st !! key = existing) as Hbefore by congruence.
  exists key.
  destruct existing as [existing|].
  - apply bind_Return in Hwrite as (row & s9 & Hrow & Hcommit).
    apply overwrite_Return in Hrow as (Hrows9 & Hcorreo & Hpswr & Hrev & Hgen & Hven & Hcount).
    apply commit_dirty_Return in Hcommit as [Hsome Hrows8].
    exists row. split; [exact Hkey|].
    split; [rewrite Hrows8, Hrows9, Hrows7, Hrows2, Hrows1; reflexivity|].
    rewrite Hbefore. unfold written. eauto 10.
  - apply bind_Return in Hwrite as (now_e & s9 & Hnow_e & Hwrite).
    apply utcnow_Return in Hnow_e as (-> & Hrows9 & Hreads9).
    apply bind_Return in Hwrite as (now_g & s10 & Hnow_g & Hcommit).
    apply utcnow_Return in Hnow_g as (-> & Hrows10 & Hreads10).
    apply commit_dirty_Return in Hcommit as [Hsome Hrows8]. simpl in *.
    eexists. split; [exact Hkey|].
    split; [rewrite Hrows8, Hrows10, Hrows9, Hrows7, Hrows2, Hrows1; reflexivity|].
    rewrite Hbefore. unfold written. simpl. rewrite Hreads9. eauto 10.
Qed.

Lemma resend_code_Return d env st g st1 :
  CodeService.resend_code settings d env st = (Return g, st1) ->
  exists key row,
    Py.int d = Some key /\
    user_pswr st1 = <[key := row]> (user_pswr st) /\
    written settings env true (user_pswr st !! key) (Generated.code g) row.
Proof.
  unfold CodeService.resend_code. intros H.
  apply try_except_Return in H.
  2: { intros [s m|m] env1 st2; unfold_session; discriminate. }
  apply bind_Return in H as (key & s1 & Hkey & H).
  apply int_Return in Hkey as [Hkey ->].
  apply bind_Return in H as (existing & s2 & Hquery & H).
  apply db_call_Return in Hquery as (_ & Hrows2 & _). simpl in Hrows2.
  apply bind_Return in H as (u & s3 & Hcheck & H).
  assert (user_pswr s3 = user_pswr st) as Hrows3.
  { destruct existing as [existing|].
    - apply bind_Return in Hcheck as (now & s & Hnow & Hcan).
      apply utcnow_Return in Hnow as (_ & Hnow & _).
      destruct (CodeVerification.can_resend settings existing now) as [[can msg] after].
      destruct can; [|discriminate Hcan]. injection Hcan as _ <-. congruence.
    - injection Hcheck as _ <-. exact Hrows2. }
  apply generate_code_Return in H as (key' & row & Hkey' & Hrows & Hwritten).
  exists key', row. rewrite <- Hrows3. auto.
Qed.

End Generate.

(** ** C8 *)

Lemma validate_code_succeeds {argon2 : Argon2} env rows document_number code key row :
  Py.int document_number = Some key ->
  rows !! key = Some row ->
  is_Some (CodeVerification.correo row) ->
  CodeVerification.revoked row = 0 ->
  utcnow_at env 0 <= CodeVerification.time_stamp_vencimiento row ->
  CodeService.verify_code_hash code (CodeVerification.pswr row) = true ->
  (forall n, db_raises env n = false) ->
  exists r,
    run (CodeService.validate_code document_number code) env rows =
      (Return r, <[key := CodeVerification.mark_as_revoked row]> rows) /\
    Validation.success r = true.
Proof.
  intros Hkey Hrow Hcorreo Hunused Hintime Hright Hdb.
  destruct (validate_code_passed env rows _ code key Hkey (Hdb 0%nat) row
              Hrow Hunused Hintime Hright) as [[e He]|[[e He]|[Hout _]]].
  - exfalso. revert He. destruct Hcorreo as [c Hc].
    unfold_run. rewrite Hkey. simpl. rewrite Hdb. simpl.
    rewrite Hrow, Hunused. simpl.
    apply Z.ltb_ge in Hintime. rewrite Hintime, Hright. simpl.
    rewrite Hc. simpl. rewrite Hdb. simpl. rewrite Hdb. discriminate.
  - exfalso. revert He. destruct Hcorreo as [c Hc].
    unfold_run. rewrite Hkey. simpl. rewrite Hdb. simpl.
    rewrite Hrow, Hunused. simpl.
    apply Z.ltb_ge in Hintime. rewrite Hintime, Hright. simpl.
    rewrite Hc. simpl. rewrite Hdb. simpl. rewrite Hdb. discriminate.
  - eexists. split; [exact Hout | reflexivity].
Qed.

(** C8. The rows are keyed by the integer value of the document number.
    For two spellings [d1] and [d2] of the same integer [key]: a generate,
    a resend and a validation under either spelling leave every row other
    than the one of [key] as it is; and when a generate or resend under
    [d1] returns a code, the row of [key] holds it, so that a validation of
    that code under [d2] -- before the expiry, with a hasher that accepts
    what it hashed and a database that answers -- succeeds and marks that
    same row used. *)
Theorem document_numbers_equal_as_integers_share_record {argon2 : Argon2}
    (settings : Settings) (env1 env2 : Env) (rows rows1 : gmap Z CodeVerification.t)
    (d1 d2 : string) (key : Z) (is_resend : bool) (g : Generated.t) :
  Py.int d1 = Some key ->
  Py.int d2 = Some key ->
  (forall salt code, argon2_verify code (argon2_hash salt code) = Some true) ->
  run (if is_resend then CodeService.resend_code settings d1
       else CodeService.generate_code settings d1 false) env1 rows = (Return g, rows1) ->
  (forall n, db_raises env2 n = false) ->
  (forall row, rows1 !! key = Some row ->
     utcnow_at env2 0 <= CodeVerification.time_stamp_vencimiento row) ->
  (forall d env rows0 b code, Py.int d = Some key ->
     same_but key rows0 (run (CodeService.generate_code settings d b) env rows0).2 /\
     same_but key rows0 (run (CodeService.resend_code settings d) env rows0).2 /\
     same_but key rows0 (run (CodeService.validate_code d code) env rows0).2) /\
  exists row r,
    rows1 !! key = Some row /\
    CodeVerification.pswr row = argon2_hash (argon2_salt env1) (Generated.code g) /\
    run (CodeService.validate_code d2 (Generated.code g)) env2 rows1 =
      (Return r, <[key := CodeVerification.mark_as_revoked row]> rows1) /\
    Validation.success r = true.
Proof.
  intros Hd1 Hd2 Hroundtrip Hrun Hdb Hintime. split.
  - intros d env rows0 b code Hd.
    assert (forall k row, Py.int d = Some k ->
              forall rows', same_but key rows' (<[k := row]> rows')) as Hwrite.
    { intros k row Hk rows'. assert (k = key) as -> by congruence.
      apply same_but_insert. }
    split; [|split]; apply keeps_run.
    + apply keeps_generate_code; [apply _ | exact Hwrite].
    + apply keeps_resend_code; [apply _ | exact Hwrite].
    + apply keeps_validate_code; [apply _ | intros; apply Hwrite; assumption].
  - assert (exists row,
              rows1 = <[key := row]> rows /\
              written settings env1 is_resend (rows !! key) (Generated.code g) row)
      as (row & -> & Hpswr & Hunused & Hcorreo & _).
    { unfold run in Hrun.
      destruct is_resend.
      - destruct (CodeService.resend_code settings d1 env1 _) as [res st1] eqn:E.
        injection Hrun as -> <-.
        apply resend_code_Return in E as (k & row & Hk & Hrows & Hw).
        assert (k = key) as -> by congruence. eauto.
      - destruct (CodeService.generate_code settings d1 false env1 _) as [res st1] eqn:E.
        injection Hrun as -> <-.
        apply generate_code_Return in E as (k & row & Hk & Hrows & Hw).
        assert (k = key) as -> by congruence. eauto. }
    assert (<[key := row]> rows !! key = Some row) as Hrow by apply lookup_insert_eq.
    destruct (validate_code_succeeds env2 (<[key := row]> rows) d2 (Generated.code g)
                key row Hd2 Hrow Hcorreo Hunused (Hintime row Hrow)) as (r & Hr & Hsuccess).
    { unfold CodeService.verify_code_hash. rewrite Hpswr, Hroundtrip. reflexivity. }
    { exact Hdb. }
    exists row, r. auto.
Qed.

Lemma document_numbers_equal_as_integers_share_record_witness :
  let generated :=
    run (CodeService.generate_code (argon2 := Sample.plain) default_settings "123456789" false)
        (Sample.env 0 1) ∅ in
  exists row r,
    generated.2 !! 123456789 = Some row /\
    run (CodeService.validate_code (argon2 := Sample.plain) "0123456789" "012345")
        (Sample.env Sample.minute 1) generated.2 =
      (Return r, <[123456789 := CodeVerification.mark_as_revoked row]> generated.2) /\
    Validation.success r = true.
Proof.
  destruct (document_numbers_equal_as_integers_share_record (argon2 := Sample.plain)
              default_settings (Sample.env 0 1) (Sample.env Sample.minute 1) ∅
              (run (CodeService.generate_code (argon2 := Sample.plain)
                      default_settings "123456789" false) (Sample.env 0 1) ∅).2
              "123456789" "0123456789" 123456789 false
              {| Generated.correo := Some "ana@example.com";
                 Generated.nombre := Some "Ana";
                 Generated.code := "012345" |}
              eq_refl eq_refl (fun _ code => f_equal Some (String.eqb_refl code)))
    as (_ & row & r & Hrow & _ & Hrun & Hsuccess).
  - reflexivity.
  - intros n. reflexivity.
  - intros row Hrow. vm_compute in Hrow. injection Hrow as <-.
    vm_compute. discriminate.
  - exists row, r. split; [exact Hrow | split; [exact Hrun | exact Hsuccess]].
Defined.

(** ** The throttle of [resend_code] *)

Section Throttle.
Context {argon2 : Argon2}.
Variable settings : Settings.
Variables (env : Env) (rows : gmap Z CodeVerification.t).
Variables (document_number : string) (key : Z) (row : CodeVerification.t).
Hypothesis Hkey : Py.int document_number = Some key.
Hypothesis Hquery : db_raises env 0%nat = false.
Hypothesis Hrow : rows !! key = Some row.

(** A refused resend raises 429 with the message of [can_resend] and
    writes nothing. *)
Lemma resend_code_refused message after :
  CodeVerification.can_resend settings row (utcnow_at env 0) =
    ((false, message), after) ->
  run (CodeService.resend_code settings document_number) env rows =
    (Raise (HTTPException 429 message), rows).
Proof.
  intros Hcan. unfold run, CodeService.resend_code, CodeService.int.
  unfold_session. rewrite Hkey. cbn -[CodeVerification.can_resend].
  rewrite Hquery. cbn -[CodeVerification.can_resend].
  rewrite Hrow. cbn -[CodeVerification.can_resend]. rewrite Hcan. reflexivity.
Qed.

(** Within the minimum delay since the last resend. *)
Lemma resend_code_too_soon last :
  CodeVerification.last_resend_at row = Some last ->
  utcnow_at env 0 - last < CODE_RESEND_DELAY_MINUTES settings * Py.us_per_minute ->
  run (CodeService.resend_code settings document_number) env rows =
    (Raise (HTTPException 429
       (CodeVerification.delay_message
          (CodeVerification.wait_time settings (utcnow_at env 0) last))), rows).
Proof.
  intros Hlast Hsoon. apply resend_code_refused with (after := row).
  unfold CodeVerification.can_resend, CodeVerification.delay_check.
  rewrite Hlast. apply Z.ltb_lt in Hsoon. rewrite Hsoon. reflexivity.
Qed.

(** At the cap, within the hour after the stored generation stamp. *)
Lemma resend_code_over_cap :
  CODE_MAX_RESEND_PER_HOUR settings <= CodeVerification.resend_count row ->
  utcnow_at env 0 - CodeVerification.time_stamp_generacion row < Py.us_per_hour ->
  exists message,
    run (CodeService.resend_code settings document_number) env rows =
      (Raise (HTTPException 429 message), rows).
Proof.
  intros Hcap Hhour.
  destruct (CodeVerification.delay_check settings row (utcnow_at env 0))
    as [message|] eqn:Hdelay.
  - exists message. apply resend_code_refused with (after := row).
    unfold CodeVerification.can_resend. rewrite Hdelay. reflexivity.
  - exists CodeVerification.hourly_message.
    apply resend_code_refused with (after := row).
    unfold CodeVerification.can_resend. rewrite Hdelay.
    apply Z.leb_le in Hcap. rewrite Hcap.
    change (1 * Py.us_per_hour) with Py.us_per_hour.
    apply Z.ltb_lt in Hhour. rewrite Hhour. reflexivity.
Qed.

End Throttle.

(** [int(x) + 1] against rounding up: they agree unless the remaining wait
    is a whole number of minutes, where the code reports one minute more. *)
Lemma wait_time_rounding settings now last :
  let remaining := CODE_RESEND_DELAY_MINUTES settings * Py.us_per_minute - (now - last) in
  0 < remaining ->
  CodeVerification.wait_time settings now last =
    if remaining mod Py.us_per_minute =? 0
    then minutes_rounded_up settings (now - last) + 1
    else minutes_rounded_up settings (now - last).
Proof.
  intros remaining Hpos.
  unfold CodeVerification.wait_time, minutes_rounded_up. fold remaining.
  replace (now - last - CODE_RESEND_DELAY_MINUTES settings * Py.us_per_minute)
    with (- remaining) by (subst remaining; lia).
  rewrite Z.quot_div_nonneg by (unfold Py.us_per_minute; lia).
  destruct (remaining mod Py.us_per_minute =? 0) eqn:Hmod.
  - apply Z.eqb_eq in Hmod.
    rewrite Z.div_opp_l_z by (unfold Py.us_per_minute; lia || exact Hmod). lia.
  - apply Z.eqb_neq in Hmod.
    rewrite Z.div_opp_l_nz by (unfold Py.us_per_minute; lia || exact Hmod). lia.
Qed.

(** ** C6 *)

(** C6, at a failing input: the last resend was exactly one minute before
    this one, with the default delay of 2 minutes.  The call fails with 429
    as the claim says, but the message tells the caller to wait 2 minutes
    while the remaining wait, rounded up to whole minutes, is 1. *)
Theorem resend_code_wait_at_whole_minute :
  let last := 10 * Sample.minute in
  let now := last + 1 * Sample.minute in
  let rows := Sample.table (Sample.row 0 1 last (Some last)) in
  run (CodeService.resend_code (argon2 := Sample.plain) default_settings "123456789")
      (Sample.env now 0) rows =
    (Raise (HTTPException 429
       "Debe esperar 2 minuto(s) antes de solicitar un nuevo código."), rows) /\
  CodeVerification.wait_time default_settings now last = 2 /\
  minutes_rounded_up default_settings (now - last) = 1.
Proof. vm_compute. split; [reflexivity | split; reflexivity]. Qed.

(** ** C5 *)

(** C5, at a failing input: the clock advances by one microsecond between
    two readings.  Overwriting an existing row stamps the generation with
    the first reading and computes the expiry from the second, so the
    expiry is the generation stamp plus 30 minutes plus one microsecond;
    creating a row ([create_code]) computes the expiry first, so it is the
    generation stamp plus 30 minutes less one microsecond. *)
Theorem generate_code_expiry_drifts :
  let ttl := Py.timedelta_minutes (CODE_EXPIRATION_MINUTES default_settings) in
  let env := Sample.env (100 * Sample.minute) 1 in
  let generate := CodeService.generate_code (argon2 := Sample.plain)
                    default_settings "123456789" false in
  (exists row,
     (run generate env (Sample.table (Sample.row 0 0 0 None))).2 !! 123456789 = Some row /\
     CodeVerification.time_stamp_vencimiento row =
       CodeVerification.time_stamp_generacion row + ttl + 1) /\
  (exists row,
     (run generate env ∅).2 !! 123456789 = Some row /\
     CodeVerification.time_stamp_vencimiento row =
       CodeVerification.time_stamp_generacion row + ttl - 1).
Proof. split; eexists; (split; [vm_compute; reflexivity | vm_compute; reflexivity]). Qed.

(** ** C3 *)

(** C3, at failing inputs.  (1) A row at the cap (5 resends) whose code was
    issued two hours ago: the resend succeeds, and the row it leaves has
    [resend_count = 6], not 1 -- the reset [can_resend] made was dropped with
    the session.  (2) A generate followed by five resends ten minutes apart:
    61 minutes after the first code, 11 minutes after the last resend, the
    next resend is refused with the hourly message, because the stored
    generation stamp is that of the last resend. *)
Theorem resend_code_hourly_reset_is_lost :
  let m := Sample.minute in
  let resend := CodeService.resend_code (argon2 := Sample.plain)
                  default_settings "123456789" in
  (exists g row,
     run resend (Sample.env (130 * m) 0)
         (Sample.table (Sample.row 0 5 (10 * m) (Some (10 * m)))) =
       (Return g, Sample.table row) /\
     CodeVerification.resend_count row = 6) /\
  (let window :=
     exec (argon2 := Sample.plain) default_settings
       [ (Generate "123456789", Sample.env 0 0);
         (Resend "123456789", Sample.env (10 * m) 0);
         (Resend "123456789", Sample.env (20 * m) 0);
         (Resend "123456789", Sample.env (30 * m) 0);
         (Resend "123456789", Sample.env (40 * m) 0);
         (Resend "123456789", Sample.env (50 * m) 0) ] ∅ in
   (exists row, window !! 123456789 = Some row /\
      CodeVerification.resend_count row = 5 /\
      CodeVerification.time_stamp_generacion row = 50 * m) /\
   run resend (Sample.env (61 * m) 0) window =
     (Raise (HTTPException 429 CodeVerification.hourly_message), window)).
Proof.
  split.
  - eexists _, _. split; [vm_compute; reflexivity | reflexivity].
  - split; [eexists; split; [vm_compute; reflexivity | split; reflexivity]
           | vm_compute; reflexivity].
Qed.

(** * Further properties of the code *)

(** ** Failed invocations commit nothing *)

Lemma bind_Raise {A B} (m : M A) (k : A -> M B) env st e st' :
  bind m k env st = (Raise e, st') ->
  m env st = (Raise e, st') \/
  exists a st1, m env st = (Return a, st1) /\ k a env st1 = (Raise e, st').
Proof.
  unfold bind. destruct (m env st) as [[a|e1] st1]; intros H.
  - right. exists a, st1. auto.
  - left. injection H as -> ->. reflexivity.
Qed.

Lemma keeps_eq_rows {A} (m : M A) env st r st1 :
  keeps eq m -> m env st = (r, st1) -> user_pswr st1 = user_pswr st.
Proof. intros H E. specialize (H env st). rewrite E in H. symmetry. exact H. Qed.

Lemma raises_clean_keeps {A} (m : M A) : keeps eq m -> raises_clean m.
Proof. intros H env st e st' E. exact (keeps_eq_rows m env st _ st' H E). Qed.

Lemma raises_clean_bind {A B} (m : M A) (k : A -> M B) :
  keeps eq m -> (forall a, raises_clean (k a)) -> raises_clean (bind m k).
Proof.
  intros Hm Hk env st e st' H.
  apply bind_Raise in H as [H | (a & st1 & Ha & H)].
  - exact (keeps_eq_rows m env st _ st' Hm H).
  - rewrite (Hk a env st1 e st' H). exact (keeps_eq_rows m env st _ st1 Hm Ha).
Qed.

Lemma raises_clean_then_ret {A B} (m : M A) (b : B) :
  raises_clean m -> raises_clean (bind m (fun _ => ret b)).
Proof.
  intros Hm env st e st' H.
  apply bind_Raise in H as [H | (a & st1 & _ & H)].
  - exact (Hm env st e st' H).
  - discriminate H.
Qed.

Lemma raises_clean_try_except {A} (m : M A) (h : exn -> M A) :
  raises_clean m -> (forall e, keeps eq (h e)) -> raises_clean (try_except m h).
Proof.
  intros Hm Hh env st e st'. unfold try_except.
  destruct (m env st) as [[a|e1] st1] eqn:E; intros H.
  - discriminate H.
  - rewrite (keeps_eq_rows (h e1) env st1 _ st' (Hh e1) H).
    exact (Hm env st e1 st1 E).
Qed.

Lemma raises_clean_commit_dirty k row : raises_clean (commit_dirty k row).
Proof.
  intros env st e st'. unfold commit_dirty.
  destruct (CodeVerification.correo row).
  - unfold db_call. destruct (db_raises env (db_calls st)); [|discriminate].
    intros [= _ <-]. reflexivity.
  - intros [= _ <-]. reflexivity.
Qed.

Lemma raises_clean_generate_code {argon2 : Argon2} settings d b :
  raises_clean (CodeService.generate_code settings d b).
Proof.
  unfold CodeService.generate_code.
  apply raises_clean_try_except.
  2: { intros [s m|m]; [apply keeps_raise; apply _|].
       apply keeps_bind; [apply _ | apply keeps_ret; apply _ |].
       intros; apply keeps_raise; apply _. }
  apply raises_clean_bind; [apply keeps_select_personal; apply _ | intros [user|]].
  2: { apply raises_clean_keeps, keeps_raise. apply _. }
  apply raises_clean_bind.
  { destruct (User.dt_fin_contrato user); [|apply keeps_ret; apply _].
    apply keeps_bind; [apply _ | apply keeps_utcnow; apply _ |].
    intros; apply keeps_ret; apply _. }
  intros [|]; [apply raises_clean_keeps, keeps_raise; apply _|].
  apply raises_clean_bind; [apply keeps_draw_code; apply _ | intros code].
  apply raises_clean_bind; [apply keeps_hash_code; apply _ | intros hashed].
  apply raises_clean_bind.
  { destruct (Py.truthy (User.movil user)); [apply keeps_int | apply keeps_ret]; apply _. }
  intros movil_int.
  apply raises_clean_bind; [apply keeps_int; apply _ | intros key].
  apply raises_clean_bind; [apply keeps_query_first; apply _ | intros existing].
  apply raises_clean_then_ret.
  destruct existing as [existing|].
  - apply raises_clean_bind; [apply keeps_overwrite; apply _ | intros row].
    apply raises_clean_commit_dirty.
  - apply raises_clean_bind; [apply keeps_utcnow; apply _ | intros now_e].
    apply raises_clean_bind; [apply keeps_utcnow; apply _ | intros now_g].
    apply raises_clean_commit_dirty.
Qed.

Lemma raises_clean_resend_code {argon2 : Argon2} settings d :
  raises_clean (CodeService.resend_code settings d).
Proof.
  unfold CodeService.resend_code.
  apply raises_clean_try_except; [|intros [s m|m]; apply keeps_raise; apply _].
  apply raises_clean_bind; [apply keeps_int; apply _ | intros key].
  apply raises_clean_bind; [apply keeps_query_first; apply _ | intros existing].
  apply raises_clean_bind; [|intros; apply raises_clean_generate_code].
  destruct existing as [existing|]; [|apply keeps_ret; apply _].
  apply keeps_bind; [apply _ | apply keeps_utcnow; apply _ | intros now].
  destruct (CodeVerification.can_resend settings existing now) as [[can msg] after].
  destruct can; [apply keeps_ret | apply keeps_raise]; apply _.
Qed.

Lemma run_Raise_clean {A} (m : M A) env rows e rows' :
  raises_clean m -> run m env rows = (Raise e, rows') -> rows' = rows.
Proof.
  intros Hm. unfold run.
  destruct (m env _) as [r st] eqn:E. intros [= -> <-].
  exact (Hm env _ e st E).
Qed.

(** X1. When [generate_code] or [resend_code] raises -- unknown or
    inactive user, throttle, malformed number, database error -- the
    committed rows are what they were before the call. *)
Theorem generate_and_resend_raise_without_writing {argon2 : Argon2}
    (settings : Settings) (env : Env) (rows rows' : gmap Z CodeVerification.t)
    (document_number : string) (is_resend resend : bool) (e : exn) :
  run (if resend then CodeService.resend_code settings document_number
       else CodeService.generate_code settings document_number is_resend)
      env rows = (Raise e, rows') ->
  rows' = rows.
Proof.
  destruct resend; apply run_Raise_clean.
  - apply raises_clean_resend_code.
  - apply raises_clean_generate_code.
Qed.

Lemma generate_and_resend_raise_without_writing_witness :
  let rows := Sample.table (Sample.row 0 5 (10 * Sample.minute) (Some (10 * Sample.minute))) in
  (run (CodeService.resend_code (argon2 := Sample.plain) default_settings "123456789")
       (Sample.env (11 * Sample.minute) 0) rows).2 = rows.
Proof.
  apply (generate_and_resend_raise_without_writing (argon2 := Sample.plain)
           default_settings (Sample.env (11 * Sample.minute) 0) _ _
           "123456789" false true
           (HTTPException 429 "Debe esperar 2 minuto(s) antes de solicitar un nuevo código.")).
  vm_compute. reflexivity.
Defined.

(** ** The row a generate or resend leaves, field by field *)

Section Rows.
Context {argon2 : Argon2}.
Variable settings : Settings.

Lemma overwrite_Return_counters existing user movil_int hashed b env st row st1 :
  CodeService.overwrite settings existing user movil_int hashed b env st
    = (Return row, st1) ->
  CodeVerification.id row = CodeVerification.id existing /\
  CodeVerification.last_resend_at row =
    (if b then Some (utcnow_at env (S (S (utc_reads st)))) else None).
Proof.
  unfold CodeService.overwrite. unfold_session.
  destruct b; intros [= <- <-]; simpl; auto.
Qed.

Lemma generate_code_row d b env st g st1 :
  CodeService.generate_code settings d b env st = (Return g, st1) ->
  exists key row user,
    Py.int d = Some key /\
    stg_personal env d = Some user /\
    user_pswr st1 = <[key := row]> (user_pswr st) /\
    Generated.correo g = User.correo user /\
    Generated.nombre g = User.ds_empleado user /\
    CodeVerification.correo row = User.correo user /\
    match user_pswr st !! key with
    | Some existing =>
        CodeVerification.id row = CodeVerification.id existing /\
        CodeVerification.resend_count row =
          (if b then CodeVerification.resend_count existing + 1 else 0) /\
        (if b then exists n, CodeVerification.last_resend_at row = Some (utcnow_at env n)
         else CodeVerification.last_resend_at row = None)
    | None =>
        CodeVerification.id row = key /\
        CodeVerification.resend_count row = 0 /\
        CodeVerification.last_resend_at row = None
    end.
Proof.
  unfold CodeService.generate_code. intros H.
  apply try_except_Return in H.
  2: { intros [s m|m] env1 st2; unfold_session; discriminate. }
  apply bind_Return in H as (user & s1 & Huser & H).
  apply db_call_Return in Huser as (Huser & Hrows1 & _). simpl in Huser, Hrows1.
  destruct user as [user|]; [|discriminate H].
  apply bind_Return in H as (ended & s2 & Hended & H).
  assert (user_pswr s2 = user_pswr s1) as Hrows2.
  { destruct (User.dt_fin_contrato user).
    - apply bind_Return in Hended as (now & s & Hnow & Hret).
      apply utcnow_Return in Hnow as (_ & Hnow & _).
      injection Hret as _ <-. exact Hnow.
    - injection Hended as _ <-. reflexivity. }
  destruct ended; [discriminate H|].
  apply bind_Return in H as (code & s3 & Hcode & H).
  injection Hcode as <- <-.
  apply bind_Return in H as (hashed & s4 & Hhash & H).
  injection Hhash as <- <-.
  apply bind_Return in H as (movil_int & s5 & Hmovil & H).
  assert (s5 = s2) as ->.
  { destruct (Py.truthy (User.movil user)).
    - apply int_Return in Hmovil as [_ ->]. reflexivity.
    - injection Hmovil as _ <-. reflexivity. }
  apply bind_Return in H as (key & s6 & Hkey & H).
  apply int_Return in Hkey as [Hkey ->].
  apply bind_Return in H as (existing & s7 & Hquery & H).
  apply db_call_Return in Hquery as (Hexisting & Hrows7 & _).
  simpl in Hexisting, Hrows7.
  apply bind_Return in H as (u & s8 & Hwrite & H).
  injection H as <- <-.
  assert (user_pswr st !! key = existing) as Hbefore by congruence.
  exists key.
  destruct existing as [existing|].
  - apply bind_Return in Hwrite as (row & s9 & Hrow & Hcommit).
    pose proof (overwrite_Return_counters _ _ _ _ _ _ _ _ _ Hrow) as (Hid & Hlast).
    apply overwrite_Return in Hrow as (Hrows9 & Hcorreo & _ & _ & _ & _ & Hcount).
    apply commit_dirty_Return in Hcommit as [_ Hrows8].
    exists row, user. rewrite Hbefore. split; [exact Hkey|]. split; [auto|].
    split; [rewrite Hrows8, Hrows9, Hrows7, Hrows2, Hrows1; reflexivity|].
    simpl. repeat (split; [auto|]).
    destruct b; [eauto | exact Hlast].
  - apply bind_Return in Hwrite as (now_e & s9 & Hnow_e & Hwrite).
    apply utcnow_Return in Hnow_e as (-> & Hrows9 & _).
    apply bind_Return in Hwrite as (now_g & s10 & Hnow_g & Hcommit).
    apply utcnow_Return in Hnow_g as (-> & Hrows10 & _).
    apply commit_dirty_Return in Hcommit as [_ Hrows8]. simpl in Hrows8.
    eexists _, user. rewrite Hbefore. split; [exact Hkey|]. split; [auto|].
    split; [rewrite Hrows8, Hrows10, Hrows9, Hrows7, Hrows2, Hrows1; reflexivity|].
    simpl. auto 10.
Qed.

(** The same, through [run], with the checks of the earlier lemma. *)
Lemma run_generate_code_row d b env rows g rows1 :
  run (CodeService.generate_code settings d b) env rows = (Return g, rows1) ->
  exists key row user,
    Py.int d = Some key /\
    stg_personal env d = Some user /\
    rows1 = <[key := row]> rows /\
    written settings env b (rows !! key) (Generated.code g) row /\
    CodeVerification.correo row = User.correo user /\
    match rows !! key with
    | Some existing =>
        CodeVerification.id row = CodeVerification.id existing /\
        (if b then exists n, CodeVerification.last_resend_at row = Some (utcnow_at env n)
         else CodeVerification.last_resend_at row = None)
    | None =>
        CodeVerification.id row = key /\
        CodeVerification.last_resend_at row = None
    end.
Proof.
  unfold run.
  destruct (CodeService.generate_code settings d b env _) as [res st1] eqn:E.
  intros [= -> <-].
  pose proof (generate_code_Return settings _ _ _ _ _ _ E) as (k1 & row1 & Hk1 & Hrows1 & Hw).
  apply generate_code_row in E
    as (key & row & user & Hkey & Huser & Hrows & _ & _ & Hcorreo & Hfields).
  simpl in *. assert (k1 = key) as -> by congruence.
  assert (row1 = row) as ->.
  { assert (<[key:=row1]> rows !! key = <[key:=row]> rows !! key) as Heq by congruence.
    rewrite !lookup_insert_eq in Heq. congruence. }
  exists key, row, user. repeat (split; [assumption|]).
  destruct (rows !! key); tauto.
Qed.

End Rows.

(** ** The throttle, read from a resend that returned *)

(** When [can_resend] allows. *)
Lemma can_resend_allows settings (self : CodeVerification.t) now :
  (CodeVerification.can_resend settings self now).1.1 = true <->
  (forall last, CodeVerification.last_resend_at self = Some last ->
     CODE_RESEND_DELAY_MINUTES settings * Py.us_per_minute <= now - last) /\
  (CodeVerification.resend_count self < CODE_MAX_RESEND_PER_HOUR settings \/
   Py.us_per_hour <= now - CodeVerification.time_stamp_generacion self).
Proof.
  unfold CodeVerification.can_resend, CodeVerification.delay_check.
  change (1 * Py.us_per_hour) with Py.us_per_hour.
  destruct (CodeVerification.last_resend_at self) as [last|].
  - destruct (Z.ltb_spec (now - last)
                (CODE_RESEND_DELAY_MINUTES settings * Py.us_per_minute)) as [Hsoon|Hlate].
    + simpl. split; [discriminate|]. intros [Hdelay _].
      specialize (Hdelay last eq_refl). lia.
    + destruct (Z.leb_spec (CODE_MAX_RESEND_PER_HOUR settings)
                  (CodeVerification.resend_count self)) as [Hcap|Hfree].
      * destruct (Z.ltb_spec (now - CodeVerification.time_stamp_generacion self)
                    Py.us_per_hour) as [Hhour|Hpast]; simpl.
        -- split; [discriminate|]. intros [_ [H|H]]; lia.
        -- split; [|reflexivity]. intros _. split; [|right; exact Hpast].
           intros l [= <-]. exact Hlate.
      * simpl. split; [|reflexivity]. intros _. split; [|left; exact Hfree].
        intros l [= <-]. exact Hlate.
  - destruct (Z.leb_spec (CODE_MAX_RESEND_PER_HOUR settings)
                (CodeVerification.resend_count self)) as [Hcap|Hfree].
    + destruct (Z.ltb_spec (now - CodeVerification.time_stamp_generacion self)
                  Py.us_per_hour) as [Hhour|Hpast]; simpl.
      * split; [discriminate|]. intros [_ [H|H]]; lia.
      * split; [|reflexivity]. intros _. split; [discriminate | right; exact Hpast].
    + simpl. split; [|reflexivity]. intros _. split; [discriminate | left; exact Hfree].
Qed.

Section Resend.
Context {argon2 : Argon2}.
Variable settings : Settings.

Lemma run_resend_code_row d env rows g rows1 :
  run (CodeService.resend_code settings d) env rows = (Return g, rows1) ->
  exists key row user,
    Py.int d = Some key /\
    stg_personal env d = Some user /\
    rows1 = <[key := row]> rows /\
    CodeVerification.revoked row = 0 /\
    CodeVerification.correo row = User.correo user /\
    is_Some (CodeVerification.correo row) /\
    match rows !! key with
    | Some existing =>
        (CodeVerification.can_resend settings existing (utcnow_at env 0)).1.1 = true /\
        CodeVerification.id row = CodeVerification.id existing /\
        CodeVerification.resend_count row = CodeVerification.resend_count existing + 1 /\
        exists n, CodeVerification.last_resend_at row = Some (utcnow_at env n)
    | None =>
        CodeVerification.id row = key /\
        CodeVerification.resend_count row = 0 /\
        CodeVerification.last_resend_at row = None
    end.
Proof.
  unfold run.
  destruct (CodeService.resend_code settings d env _) as [res st1] eqn:E.
  intros [= -> <-]. revert E.
  unfold CodeService.resend_code. intros H.
  apply try_except_Return in H.
  2: { intros [s m|m] env1 st2; unfold_session; discriminate. }
  apply bind_Return in H as (key & s1 & Hkey & H).
  apply int_Return in Hkey as [Hkey ->].
  apply bind_Return in H as (existing & s2 & Hquery & H).
  apply db_call_Return in Hquery as (Hexisting & Hrows2 & Hreads2).
  simpl in Hexisting, Hrows2, Hreads2.
  apply bind_Return in H as (u & s3 & Hcheck & H).
  assert (user_pswr s3 = rows /\
          match existing with
          | Some existing =>
              (CodeVerification.can_resend settings existing (utcnow_at env 0)).1.1 = true
          | None => True
          end) as [Hrows3 Hcan].
  { destruct existing as [existing|].
    - apply bind_Return in Hcheck as (now & s & Hnow & Hcan).
      apply utcnow_Return in Hnow as (-> & Hnow & _). rewrite Hreads2 in Hcan.
      destruct (CodeVerification.can_resend settings existing (utcnow_at env 0%nat))
        as [[can msg] after].
      destruct can; [|discriminate Hcan]. injection Hcan as _ <-.
      split; [congruence | reflexivity].
    - injection Hcheck as _ <-. split; [exact Hrows2 | exact I]. }
  pose proof (generate_code_Return settings _ _ _ _ _ _ H)
    as (k1 & row1 & Hk1 & Hr1 & _ & Hrev & Hsome & _).
  apply generate_code_row in H
    as (k & row & user & Hk & Huser & Hrows & _ & _ & Hcorreo & Hfields).
  assert (k = key) as -> by congruence. assert (k1 = key) as -> by congruence.
  assert (row1 = row) as ->.
  { assert (<[key:=row1]> (user_pswr s3) !! key = <[key:=row]> (user_pswr s3) !! key)
      as Heq by congruence.
    rewrite !lookup_insert_eq in Heq. congruence. }
  rewrite Hrows3 in Hrows, Hfields.
  exists key, row, user. repeat (split; [assumption|]).
  rewrite <- Hexisting in Hfields |- *.
  destruct existing as [existing|]; simpl in Hfields |- *; tauto.
Qed.

End Resend.

(** X2. A resend that returns honoured the throttle: for a row that was
    there, at the reading of the clock [can_resend] took, the minimum delay
    since the last resend had passed, and the counter was below the cap or
    an hour had passed since the stored generation stamp.  The row it
    leaves counts one resend more and records when. *)
Theorem resend_code_returns_within_policy {argon2 : Argon2} (settings : Settings)
    (env : Env) (rows rows1 : gmap Z CodeVerification.t)
    (document_number : string) (key : Z) (existing : CodeVerification.t)
    (g : Generated.t) :
  Py.int document_number = Some key ->
  rows !! key = Some existing ->
  run (CodeService.resend_code settings document_number) env rows = (Return g, rows1) ->
  let now := utcnow_at env 0 in
  (forall last, CodeVerification.last_resend_at existing = Some last ->
     CODE_RESEND_DELAY_MINUTES settings * Py.us_per_minute <= now - last) /\
  (CodeVerification.resend_count existing < CODE_MAX_RESEND_PER_HOUR settings \/
   Py.us_per_hour <= now - CodeVerification.time_stamp_generacion existing) /\
  exists row,
    rows1 = <[key := row]> rows /\
    CodeVerification.resend_count row = CodeVerification.resend_count existing + 1 /\
    (exists n, CodeVerification.last_resend_at row = Some (utcnow_at env n)) /\
    CodeVerification.revoked row = 0.
Proof.
  intros Hkey Hexisting Hrun now.
  apply run_resend_code_row in Hrun
    as (k & row & user & Hk & _ & Hrows & Hrev & _ & _ & Hfields).
  assert (k = key) as -> by congruence.
  rewrite Hexisting in Hfields. destruct Hfields as (Hcan & _ & Hcount & Hlast).
  apply can_resend_allows in Hcan as [Hdelay Hcap].
  split; [exact Hdelay|]. split; [exact Hcap|].
  exists row. auto.
Qed.

Lemma resend_code_returns_within_policy_witness :
  let last := 10 * Sample.minute in
  CODE_RESEND_DELAY_MINUTES default_settings * Py.us_per_minute
    <= utcnow_at (Sample.env (13 * Sample.minute) 1) 0 - last.
Proof.
  refine (proj1 (resend_code_returns_within_policy (argon2 := Sample.plain)
            default_settings (Sample.env (13 * Sample.minute) 1)
            (Sample.table (Sample.row 0 1 (10 * Sample.minute) (Some (10 * Sample.minute))))
            (run (CodeService.resend_code (argon2 := Sample.plain) default_settings
                    "123456789") (Sample.env (13 * Sample.minute) 1)
               (Sample.table (Sample.row 0 1 (10 * Sample.minute)
                                (Some (10 * Sample.minute))))).2
            "123456789" 123456789
            (Sample.row 0 1 (10 * Sample.minute) (Some (10 * Sample.minute)))
            {| Generated.correo := Some "ana@example.com";
               Generated.nombre := Some "Ana";
               Generated.code := "012345" |}
            eq_refl eq_refl _) (10 * Sample.minute) eq_refl).
  vm_compute. reflexivity.
Defined.

(** X3. A fresh [generate_code] that returns overwrites whatever row the
    identity had -- used, expired, at the resend cap -- with an unused row
    holding the digest of the returned code, a resend counter of 0 and no
    last resend; with a positive cap, [can_resend] then allows a resend at
    any time.  The resend throttle does not limit fresh generations. *)
Theorem generate_code_resets_throttle {argon2 : Argon2} (settings : Settings)
    (env : Env) (rows rows1 : gmap Z CodeVerification.t)
    (document_number : string) (g : Generated.t) :
  0 < CODE_MAX_RESEND_PER_HOUR settings ->
  run (CodeService.generate_code settings document_number false) env rows
    = (Return g, rows1) ->
  exists key row,
    Py.int document_number = Some key /\
    rows1 = <[key := row]> rows /\
    CodeVerification.pswr row = argon2_hash (argon2_salt env) (Generated.code g) /\
    CodeVerification.revoked row = 0 /\
    CodeVerification.resend_count row = 0 /\
    CodeVerification.last_resend_at row = None /\
    forall now, CodeVerification.can_resend settings row now = ((true, ""), row).
Proof.
  intros Hcap Hrun.
  apply run_generate_code_row in Hrun
    as (key & row & user & Hkey & _ & Hrows & Hw & _ & Hfields).
  destruct Hw as (Hpswr & Hrev & _ & Hstamps).
  assert (CodeVerification.resend_count row = 0 /\
          CodeVerification.last_resend_at row = None) as [Hcount Hlast].
  { destruct (rows !! key); tauto. }
  exists key, row. repeat (split; [assumption|]).
  intros now. unfold CodeVerification.can_resend, CodeVerification.delay_check.
  rewrite Hlast, Hcount.
  destruct (Z.leb_spec (CODE_MAX_RESEND_PER_HOUR settings) 0); [lia | reflexivity].
Qed.

Lemma generate_code_resets_throttle_witness :
  let rows := Sample.table (Sample.row 1 5 0 (Some (10 * Sample.minute))) in
  exists row,
    (run (CodeService.generate_code (argon2 := Sample.plain) default_settings
            "123456789" false) (Sample.env (11 * Sample.minute) 1) rows).2
      !! 123456789 = Some row /\
    CodeVerification.revoked row = 0 /\
    CodeVerification.resend_count row = 0.
Proof.
  destruct (generate_code_resets_throttle (argon2 := Sample.plain) default_settings
              (Sample.env (11 * Sample.minute) 1)
              (Sample.table (Sample.row 1 5 0 (Some (10 * Sample.minute))))
              (run (CodeService.generate_code (argon2 := Sample.plain) default_settings
                      "123456789" false) (Sample.env (11 * Sample.minute) 1)
                 (Sample.table (Sample.row 1 5 0 (Some (10 * Sample.minute))))).2
              "123456789"
              {| Generated.correo := Some "ana@example.com";
                 Generated.nombre := Some "Ana";
                 Generated.code := "012345" |})
    as (key & row & Hkey & Hrows & _ & Hrev & Hcount & _).
  - reflexivity.
  - vm_compute. reflexivity.
  - exists row. cbv zeta. rewrite Hrows.
    injection Hkey as <-. rewrite lookup_insert_eq. auto.
Defined.

(** X4. A [resend_code] for an identity that has no row goes through
    [create_code]: the row it leaves has a resend counter of 0 and no last
    resend, so this first resend is neither counted against the hourly cap
    nor does it start the minimum delay. *)
Theorem resend_code_without_row_is_not_counted {argon2 : Argon2}
    (settings : Settings) (env : Env) (rows rows1 : gmap Z CodeVerification.t)
    (document_number : string) (key : Z) (g : Generated.t) :
  Py.int document_number = Some key ->
  rows !! key = None ->
  run (CodeService.resend_code settings document_number) env rows = (Return g, rows1) ->
  exists row,
    rows1 = <[key := row]> rows /\
    CodeVerification.id row = key /\
    CodeVerification.revoked row = 0 /\
    CodeVerification.resend_count row = 0 /\
    CodeVerification.last_resend_at row = None /\
    CodeVerification.delay_check settings row = fun _ => None.
Proof.
  intros Hkey Hnone Hrun.
  apply run_resend_code_row in Hrun
    as (k & row & user & Hk & _ & Hrows & Hrev & _ & _ & Hfields).
  assert (k = key) as -> by congruence.
  rewrite Hnone in Hfields. destruct Hfields as (Hid & Hcount & Hlast).
  exists row. repeat (split; [assumption|]).
  unfold CodeVerification.delay_check. rewrite Hlast. reflexivity.
Qed.

Lemma resend_code_without_row_is_not_counted_witness :
  exists row,
    (run (CodeService.resend_code (argon2 := Sample.plain) default_settings "123456789")
         (Sample.env Sample.minute 1) ∅).2 !! 123456789 = Some row /\
    CodeVerification.resend_count row = 0 /\
    CodeVerification.last_resend_at row = None.
Proof.
  destruct (resend_code_without_row_is_not_counted (argon2 := Sample.plain)
              default_settings (Sample.env Sample.minute 1) ∅
              (run (CodeService.resend_code (argon2 := Sample.plain) default_settings
                      "123456789") (Sample.env Sample.minute 1) ∅).2
              "123456789" 123456789
              {| Generated.correo := Some "ana@example.com";
                 Generated.nombre := Some "Ana";
                 Generated.code := "012345" |} eq_refl (lookup_empty 123456789))
    as (row & Hrows & _ & _ & Hcount & Hlast & _).
  - vm_compute. reflexivity.
  - exists row. rewrite Hrows, lookup_insert_eq. auto.
Defined.

(** ** What any invocation keeps true of the table *)

(** The rows after a validation: the same, or one unused, unexpired row
    that the code matched, now marked used. *)
Lemma validate_code_rows {argon2 : Argon2} env rows document_number code r rows' :
  run (CodeService.validate_code document_number code) env rows = (r, rows') ->
  rows' = rows \/
  exists key row,
    Py.int document_number = Some key /\
    rows !! key = Some row /\
    CodeVerification.revoked row = 0 /\
    utcnow_at env 0 <= CodeVerification.time_stamp_vencimiento row /\
    CodeService.verify_code_hash code (CodeVerification.pswr row) = true /\
    rows' = <[key := CodeVerification.mark_as_revoked row]> rows.
Proof.
  intros Hrun.
  destruct (Py.int document_number) as [key|] eqn:Hkey.
  2: { left. revert Hrun. unfold_run. rewrite Hkey. simpl. intros [= _ <-]. reflexivity. }
  destruct (db_raises env 0%nat) eqn:Hquery.
  { left. revert Hrun. unfold_run. rewrite Hkey. simpl. rewrite Hquery. simpl.
    intros [= _ <-]. reflexivity. }
  destruct (rows !! key) as [row|] eqn:Hrow.
  2: { rewrite (validate_code_not_found env rows _ code key Hkey Hquery Hrow) in Hrun.
       left. congruence. }
  destruct (decide (CodeVerification.revoked row = 0)) as [Hunused|Hused].
  2: { rewrite (validate_code_already_used env rows _ code key Hkey Hquery row Hrow Hused) in Hrun.
       left. congruence. }
  destruct (decide (CodeVerification.time_stamp_vencimiento row < utcnow_at env 0))
    as [Hlate|Hintime].
  { rewrite (validate_code_expired env rows _ code key Hkey Hquery row Hrow Hunused Hlate) in Hrun.
    left. congruence. }
  apply Z.nlt_ge in Hintime.
  destruct (CodeService.verify_code_hash code (CodeVerification.pswr row)) eqn:Hverify.
  2: { rewrite (validate_code_incorrect env rows _ code key Hkey Hquery row Hrow
                  Hunused Hintime Hverify) in Hrun.
       left. congruence. }
  destruct (validate_code_passed env rows _ code key Hkey Hquery row Hrow Hunused
              Hintime Hverify) as [[e He]|[[e He]|[Hout _]]]; rewrite Hrun in *.
  - left. congruence.
  - right. exists key, row. repeat (split; [assumption || reflexivity|]). congruence.
  - right. exists key, row. repeat (split; [assumption || reflexivity|]). congruence.
Qed.

Lemma table_ok_insert key row rows :
  row_ok key row -> table_ok rows -> table_ok (<[key := row]> rows).
Proof. intros Hrow Hrows. apply map_Forall_insert_2; assumption. Qed.

Lemma step_table_ok {argon2 : Argon2} settings rows (c : call * Env) :
  table_ok rows -> table_ok (step settings rows c).
Proof.
  intros Hok. destruct c as [[d|d|d code|] env]; unfold step; simpl.
  - destruct (run (CodeService.generate_code settings d false) env rows)
      as [[g|e] rows1] eqn:E; simpl.
    + apply run_generate_code_row in E
        as (key & row & user & _ & _ & -> & Hw & _ & Hfields).
      destruct Hw as (_ & Hrev & Hsome & Hstamps).
      apply table_ok_insert; [|exact Hok].
      destruct (rows !! key) as [existing|] eqn:Hex.
      * destruct (Hok key existing Hex) as (Hid & _ & _ & Hcount).
        destruct Hstamps as [_ Hc]. destruct Hfields as [Hi _].
        repeat split; [congruence | assumption | auto | lia].
      * destruct Hstamps as [_ Hc]. destruct Hfields as [Hi _].
        repeat split; [assumption | assumption | auto | lia].
    + apply run_Raise_clean in E as ->; [exact Hok | apply raises_clean_generate_code].
  - destruct (run (CodeService.resend_code settings d) env rows)
      as [[g|e] rows1] eqn:E; simpl.
    + apply run_resend_code_row in E
        as (key & row & user & _ & _ & -> & Hrev & _ & Hsome & Hfields).
      apply table_ok_insert; [|exact Hok].
      destruct (rows !! key) as [existing|] eqn:Hex.
      * destruct (Hok key existing Hex) as (Hid & _ & _ & Hcount).
        destruct Hfields as (_ & Hi & Hc & _).
        repeat split; [congruence | assumption | auto | lia].
      * destruct Hfields as (Hi & Hc & _).
        repeat split; [assumption | assumption | auto | lia].
    + apply run_Raise_clean in E as ->; [exact Hok | apply raises_clean_resend_code].
  - destruct (run (CodeService.validate_code d code) env rows) as [r rows1] eqn:E; simpl.
    apply validate_code_rows in E as [-> | (key & row & _ & Hrow & _ & _ & _ & ->)];
      [exact Hok|].
    apply table_ok_insert; [|exact Hok].
    destruct (Hok key row Hrow) as (Hid & Hsome & _ & Hcount).
    repeat split; simpl; auto.
  - rewrite cleanup_expired_codes_run.
    destruct (_ || _); simpl; [exact Hok|].
    intros k row Hrow. apply map_lookup_filter_Some in Hrow as [Hrow _].
    exact (Hok k row Hrow).
Qed.

(** X5. Every sequence of generate, resend, validate and sweep
    invocations, with any clocks, inputs and database failures, keeps the
    table well formed: each row sits under the key equal to its own [id],
    its [correo] is set, its [revoked] flag is 0 or 1 and its resend
    counter is not negative. *)
Theorem exec_keeps_table_ok {argon2 : Argon2} (settings : Settings)
    (calls : list (call * Env)) (rows : gmap Z CodeVerification.t) :
  table_ok rows -> table_ok (exec settings calls rows).
Proof.
  revert rows. induction calls as [|c calls IH]; intros rows Hok; simpl.
  - exact Hok.
  - apply IH, step_table_ok, Hok.
Qed.

Lemma exec_keeps_table_ok_witness :
  table_ok
    (exec (argon2 := Sample.plain) default_settings
       [ (Generate "123456789", Sample.env 0 1);
         (Validate "0123456789" "012345", Sample.env Sample.minute 1);
         (Resend "123456789", Sample.env (5 * Sample.minute) 1);
         (Cleanup, Sample.failing 1 (90 * Sample.minute)) ] ∅).
Proof.
  apply (exec_keeps_table_ok (argon2 := Sample.plain)).
  apply map_Forall_empty.
Defined.

(** ** More on [validate_code] *)



(** X7. When every check passes and the commit goes through but the
    personnel SELECT that follows raises, [validate_code] raises a 500 and
    the code is consumed all the same: the row is marked used, and a retry
    with the same code is told that the code was already used. *)
Theorem validate_code_raises_after_commit {argon2 : Argon2} (env env2 : Env)
    (rows : gmap Z CodeVerification.t) (document_number code : string)
    (key : Z) (row : CodeVerification.t) :
  Py.int document_number = Some key ->
  rows !! key = Some row ->
  is_Some (CodeVerification.correo row) ->
  CodeVerification.revoked row = 0 ->
  utcnow_at env 0 <= CodeVerification.time_stamp_vencimiento row ->
  CodeService.verify_code_hash code (CodeVerification.pswr row) = true ->
  db_raises env 0%nat = false ->
  db_raises env 1%nat = false ->
  db_raises env 2%nat = true ->
  db_raises env2 0%nat = false ->
  let used := <[key := CodeVerification.mark_as_revoked row]> rows in
  run (CodeService.validate_code document_number code) env rows =
    (Raise (HTTPException 500 "Error al validar el código de validación."), used) /\
  run (CodeService.validate_code document_number code) env2 used =
    (Return (Validation.failure CodeService.msg_already_used), used).
Proof.
  intros Hkey Hrow [c Hc] Hunused Hintime Hright H0 H1 H2 Hretry used. split.
  - unfold_run. rewrite Hkey. simpl. rewrite H0. simpl.
    rewrite Hrow, Hunused. simpl.
    apply Z.ltb_ge in Hintime. rewrite Hintime, Hright. simpl.
    rewrite Hc. simpl. rewrite H1. simpl. rewrite H2. reflexivity.
  - apply (validate_code_already_used env2 used _ code key Hkey Hretry
             (CodeVerification.mark_as_revoked row)).
    + apply lookup_insert_eq.
    + discriminate.
Qed.

Lemma validate_code_raises_after_commit_witness :
  let rows := Sample.table (Sample.row 0 0 0 None) in
  (run (CodeService.validate_code (argon2 := Sample.plain) "123456789" "012345")
       (Sample.failing 2 Sample.minute) rows).1 =
  Raise (HTTPException 500 "Error al validar el código de validación.").
Proof.
  cbv zeta.
  rewrite (proj1 (validate_code_raises_after_commit (argon2 := Sample.plain)
             (Sample.failing 2 Sample.minute) (Sample.env Sample.minute 1)
             (Sample.table (Sample.row 0 0 0 None)) "123456789" "012345" 123456789
             (Sample.row 0 0 0 None) eq_refl eq_refl (ex_intro _ _ eq_refl) eq_refl
             ltac:(vm_compute; discriminate) eq_refl eq_refl eq_refl eq_refl eq_refl)).
  reflexivity.
Defined.

(** X8. [verify_code_hash] turns an exception of the hasher into [False]:
    when [argon2.verify] raises on the stored digest of an unused,
    unexpired row, [validate_code] does not fail with a server error but
    answers that the code is incorrect, and changes nothing. *)
Theorem validate_code_malformed_digest {argon2 : Argon2} (env : Env)
    (rows : gmap Z CodeVerification.t) (document_number code : string)
    (key : Z) (row : CodeVerification.t) :
  Py.int document_number = Some key ->
  db_raises env 0%nat = false ->
  rows !! key = Some row ->
  CodeVerification.revoked row = 0 ->
  utcnow_at env 0 <= CodeVerification.time_stamp_vencimiento row ->
  argon2_verify code (CodeVerification.pswr row) = None ->
  run (CodeService.validate_code document_number code) env rows =
    (Return (Validation.failure CodeService.msg_incorrect), rows).
Proof.
  intros Hkey Hquery Hrow Hunused Hintime Hraises.
  apply (validate_code_incorrect env rows _ code key Hkey Hquery row Hrow Hunused Hintime).
  unfold CodeService.verify_code_hash. rewrite Hraises. reflexivity.
Qed.

Lemma validate_code_malformed_digest_witness :
  run (CodeService.validate_code (argon2 := Sample.strict) "123456789" "012345")
      (Sample.env Sample.minute 1) (Sample.table Sample.blank) =
    (Return (Validation.failure CodeService.msg_incorrect), Sample.table Sample.blank).
Proof.
  apply (validate_code_malformed_digest (argon2 := Sample.strict)
           (Sample.env Sample.minute 1) (Sample.table Sample.blank)
           "123456789" "012345" 123456789 Sample.blank eq_refl eq_refl eq_refl eq_refl).
  - vm_compute. discriminate.
  - reflexivity.
Defined.

(** ** [is_valid], [time_until_expiry] and the sweep *)

(** X9. [is_valid] is the gate of both the validation and the sweep: for
    a stored row, [validate_code] answers "already used" or "expired"
    exactly when [is_valid] is false at its reading of the clock, and a
    sweep that works keeps the row exactly when it is used or [is_valid]
    holds at the sweep's reading. *)
Theorem is_valid_gates_validation_and_sweep {argon2 : Argon2} (env sweep : Env)
    (rows : gmap Z CodeVerification.t) (document_number code : string)
    (key : Z) (row : CodeVerification.t) :
  Py.int document_number = Some key ->
  db_raises env 0%nat = false ->
  db_raises sweep 0%nat = false ->
  db_raises sweep 1%nat = false ->
  rows !! key = Some row ->
  let out := (run (CodeService.validate_code document_number code) env rows).1 in
  (CodeVerification.is_valid row (utcnow_at env 0) = false <->
   out = Return (Validation.failure CodeService.msg_already_used) \/
   out = Return (Validation.failure CodeService.msg_expired)) /\
  ((run CodeService.cleanup_expired_codes sweep rows).2 !! key = Some row <->
   CodeVerification.revoked row <> 0 \/
   CodeVerification.is_valid row (utcnow_at sweep 0) = true).
Proof.
  intros Hkey Hquery Hs0 Hs1 Hrow out. split.
  - subst out. unfold CodeVerification.is_valid.
    destruct (decide (CodeVerification.revoked row = 0)) as [Hunused|Hused].
    + rewrite Hunused. simpl.
      destruct (Z.leb_spec (utcnow_at env 0) (CodeVerification.time_stamp_vencimiento row))
        as [Hintime|Hlate].
      * split; [discriminate|].
        destruct (CodeService.verify_code_hash code (CodeVerification.pswr row)) eqn:Hv.
        -- destruct (validate_code_passed env rows _ code key Hkey Hquery row Hrow
                       Hunused Hintime Hv) as [[e He]|[[e He]|[He _]]];
             rewrite He; simpl; intros [Hx|Hx]; discriminate Hx.
        -- rewrite (validate_code_incorrect env rows _ code key Hkey Hquery row Hrow
                      Hunused Hintime Hv).
           simpl. intros [Hx|Hx]; discriminate Hx.
      * split; [|reflexivity]. intros _. right.
        rewrite (validate_code_expired env rows _ code key Hkey Hquery row Hrow Hunused Hlate).
        reflexivity.
    + apply Z.eqb_neq in Hused as Hb. rewrite Hb. simpl.
      split; [|reflexivity]. intros _. left.
      rewrite (validate_code_already_used env rows _ code key Hkey Hquery row Hrow Hused).
      reflexivity.
  - rewrite cleanup_expired_codes_run, Hs0, Hs1. simpl.
    rewrite map_lookup_filter_Some. unfold expired_unused, CodeVerification.is_valid. simpl.
    destruct (Z.eqb_spec (CodeVerification.revoked row) 0) as [Hunused|Hused]; simpl.
    + destruct (Z.leb_spec (utcnow_at sweep 0) (CodeVerification.time_stamp_vencimiento row)).
      * split; [auto|]. intros _. split; [exact Hrow|]. lia.
      * split; [|intros [Hx|Hx]; [contradiction | discriminate]].
        intros [_ Hkeep]. exfalso. apply Hkeep. split; [assumption | assumption].
    + split; [auto|]. intros _. split; [exact Hrow|]. tauto.
Qed.

Lemma is_valid_gates_validation_and_sweep_witness :
  let expired := Sample.row 0 0 0 None in
  (run (CodeService.validate_code (argon2 := Sample.plain) "123456789" "012345")
       (Sample.env (31 * Sample.minute) 1) (Sample.table expired)).1 =
    Return (Validation.failure CodeService.msg_already_used) \/
  (run (CodeService.validate_code (argon2 := Sample.plain) "123456789" "012345")
       (Sample.env (31 * Sample.minute) 1) (Sample.table expired)).1 =
    Return (Validation.failure CodeService.msg_expired).
Proof.
  apply (is_valid_gates_validation_and_sweep (argon2 := Sample.plain)
           (Sample.env (31 * Sample.minute) 1) (Sample.env (31 * Sample.minute) 1)
           (Sample.table (Sample.row 0 0 0 None)) "123456789" "012345" 123456789
           (Sample.row 0 0 0 None) eq_refl eq_refl eq_refl eq_refl eq_refl).
  reflexivity.
Defined.

(** X10. Sweeps compose: after a sweep that worked, a second sweep whose
    clock reads the same or an earlier instant finds nothing to delete --
    it returns 0 and leaves the rows as the first sweep left them. *)
Theorem cleanup_expired_codes_twice (env1 env2 : Env) (rows : gmap Z CodeVerification.t) :
  db_raises env1 0%nat = false ->
  db_raises env1 1%nat = false ->
  utcnow_at env2 0 <= utcnow_at env1 0 ->
  let swept := (run CodeService.cleanup_expired_codes env1 rows).2 in
  run CodeService.cleanup_expired_codes env2 swept = (Return 0, swept).
Proof.
  intros H0 H1 Hclock swept. subst swept.
  rewrite (cleanup_expired_codes_run env1), H0, H1. simpl.
  rewrite cleanup_expired_codes_run.
  destruct (_ || _); [reflexivity|].
  assert (forall k row,
            filter (fun kv => ~ expired_unused (utcnow_at env1 0) kv) rows !! k = Some row ->
            ~ expired_unused (utcnow_at env2 0) (k, row)) as Hnone.
  { intros k row Hrow [Hpast Hunused]. simpl in Hpast, Hunused.
    apply map_lookup_filter_Some in Hrow as [_ Hkeep].
    apply Hkeep. split; simpl; [lia | exact Hunused]. }
  rewrite (map_filter_id (fun kv => ~ expired_unused (utcnow_at env2 0) kv)) by exact Hnone.
  assert (filter (expired_unused (utcnow_at env2 0))
            (filter (fun kv => ~ expired_unused (utcnow_at env1 0) kv) rows) = ∅) as ->.
  { apply map_empty_filter, map_Forall_lookup. exact Hnone. }
  reflexivity.
Qed.

Lemma cleanup_expired_codes_twice_witness :
  let env := Sample.env (100 * Sample.minute) 1 in
  let swept := (run CodeService.cleanup_expired_codes env
                  (Sample.table (Sample.row 0 0 0 None))).2 in
  run CodeService.cleanup_expired_codes env swept = (Return 0, swept).
Proof.
  apply (cleanup_expired_codes_twice (Sample.env (100 * Sample.minute) 1)
           (Sample.env (100 * Sample.minute) 1)
           (Sample.table (Sample.row 0 0 0 None)) eq_refl eq_refl).
  vm_compute. discriminate.
Defined.

(** X11. [time_until_expiry], when its two readings of the clock agree:
    it returns [None] exactly when the expiry has passed, and otherwise the
    whole minutes that remain, rounded down.  When the expiry falls between
    the two readings it does not return [None] but a number that is zero
    or negative. *)
Theorem time_until_expiry_bounds (self : CodeVerification.t) (now later : Z) :
  (CodeVerification.time_until_expiry self now now = None <->
   CodeVerification.time_stamp_vencimiento self < now) /\
  (forall m, CodeVerification.time_until_expiry self now now = Some m ->
     0 <= m /\
     m * Py.us_per_minute <= CodeVerification.time_stamp_vencimiento self - now
       < (m + 1) * Py.us_per_minute) /\
  (now <= CodeVerification.time_stamp_vencimiento self < later ->
   exists m, CodeVerification.time_until_expiry self now later = Some m /\ m <= 0).
Proof.
  unfold CodeVerification.time_until_expiry.
  split; [|split].
  - destruct (Z.ltb_spec (CodeVerification.time_stamp_vencimiento self) now);
      split; auto; try discriminate; lia.
  - intros m.
    destruct (Z.ltb_spec (CodeVerification.time_stamp_vencimiento self) now);
      [discriminate|].
    intros [= <-].
    rewrite Z.quot_div_nonneg by (unfold Py.us_per_minute; lia).
    pose proof (Z.div_mod (CodeVerification.time_stamp_vencimiento self - now)
                  Py.us_per_minute) as Hdm.
    pose proof (Z.mod_pos_bound (CodeVerification.time_stamp_vencimiento self - now)
                  Py.us_per_minute) as Hb.
    unfold Py.us_per_minute in *.
    assert (0 <= (CodeVerification.time_stamp_vencimiento self - now) / 60000000)
      by (apply Z.div_pos; lia).
    lia.
  - intros [Hnow Hlater].
    destruct (Z.ltb_spec (CodeVerification.time_stamp_vencimiento self) now); [lia|].
    eexists. split; [reflexivity|].
    apply Z.quot_le_upper_bound; unfold Py.us_per_minute; lia.
Qed.

(** ** The answers of [generate_code] to unknown and inactive users *)

Lemma raises_only_ret {A} P (a : A) : raises_only P (ret a).
Proof. intros env st e st'. discriminate. Qed.

Lemma raises_only_utcnow P : raises_only P utcnow.
Proof. intros env st e st'. discriminate. Qed.

Lemma raises_only_raise {A} (P : exn -> Prop) e : P e -> raises_only P (@raise A e).
Proof. intros He env st e' st' [= <- _]. exact He. Qed.

Lemma raises_only_bind {A B} P (m : M A) (k : A -> M B) :
  raises_only P m -> (forall a, raises_only P (k a)) -> raises_only P (bind m k).
Proof.
  intros Hm Hk env st e st' H.
  apply bind_Raise in H as [H | (a & st1 & _ & H)].
  - exact (Hm env st e st' H).
  - exact (Hk a env st1 e st' H).
Qed.

Lemma raises_only_db_call {A}
    (f : gmap Z CodeVerification.t -> A * gmap Z CodeVerification.t) :
  raises_only plain_exception (db_call f).
Proof.
  intros env st e st'. unfold db_call.
  destruct (db_raises env (db_calls st)).
  - intros [= <- _]. exact I.
  - destruct (f (user_pswr st)). discriminate.
Qed.

Lemma raises_only_int d : raises_only plain_exception (CodeService.int d).
Proof.
  unfold CodeService.int. destruct (Py.int d).
  - apply raises_only_ret.
  - apply raises_only_raise. exact I.
Qed.

Lemma raises_only_commit_dirty k row : raises_only plain_exception (commit_dirty k row).
Proof.
  unfold commit_dirty. destruct (CodeVerification.correo row).
  - apply raises_only_db_call.
  - intros env st e st' [= <- _]. exact I.
Qed.

Section Answers.
Context {argon2 : Argon2}.
Variable settings : Settings.

(** What follows the two checks of [generate_code] raises no
    [HTTPException] of its own. *)
Lemma raises_only_overwrite existing user movil_int hashed b :
  raises_only plain_exception
    (CodeService.overwrite settings existing user movil_int hashed b).
Proof.
  unfold CodeService.overwrite.
  apply raises_only_bind; [apply raises_only_utcnow | intros now_g].
  apply raises_only_bind; [apply raises_only_utcnow | intros now_v].
  destruct b; [|apply raises_only_ret].
  apply raises_only_bind; [apply raises_only_utcnow | intros; apply raises_only_ret].
Qed.

Lemma generate_code_unknown d b env rows :
  db_raises env 0%nat = false ->
  stg_personal env d = None ->
  run (CodeService.generate_code settings d b) env rows =
    (Raise (HTTPException 404 msg_unknown), rows).
Proof.
  intros Hdb Hnone. unfold run, CodeService.generate_code. unfold_session.
  simpl. rewrite Hdb, Hnone. reflexivity.
Qed.

Lemma generate_code_inactive d b env rows user :
  db_raises env 0%nat = false ->
  stg_personal env d = Some user ->
  User.is_active user (Py.date (utcnow_at env 0)) = false ->
  run (CodeService.generate_code settings d b) env rows =
    (Raise (HTTPException 403 msg_inactive), rows).
Proof.
  intros Hdb Huser Hactive. unfold run, CodeService.generate_code. unfold_session.
  simpl. rewrite Hdb, Huser. simpl.
  unfold User.is_active in Hactive.
  destruct (User.dt_fin_contrato user) as [fin|]; [|discriminate Hactive]. simpl.
  apply Z.leb_gt in Hactive. apply Z.ltb_lt in Hactive. rewrite Hactive. reflexivity.
Qed.

Lemma generate_code_active d b env rows user :
  db_raises env 0%nat = false ->
  stg_personal env d = Some user ->
  User.is_active user (Py.date (utcnow_at env 0)) = true ->
  (exists g, (run (CodeService.generate_code settings d b) env rows).1 = Return g) \/
  (exists m, (run (CodeService.generate_code settings d b) env rows).1
             = Raise (HTTPException 500 m)).
Proof.
  intros Hdb Huser Hactive. unfold run, CodeService.generate_code, try_except.
  match goal with
  | |- context [match ?m env ?st with _ => _ end] =>
      destruct (m env st) as [[g|e] st1] eqn:E
  end.
  { left. eauto. }
  right.
  assert (plain_exception e) as He.
  { apply bind_Raise in E as [E | (u & s1 & Hu & E)].
    { revert E. unfold select_personal, db_call. simpl. rewrite Hdb. discriminate. }
    apply db_call_Return in Hu as (-> & _ & Hreads). simpl in E, Hreads.
    rewrite Huser in E.
    apply bind_Raise in E as [E | (ended & s2 & Hended & E)].
    { destruct (User.dt_fin_contrato user); revert E; unfold_session; discriminate. }
    assert (ended = false) as ->.
    { unfold User.is_active in Hactive.
      destruct (User.dt_fin_contrato user) as [fin|].
      - revert Hended. unfold_session. rewrite Hreads. intros [= <- _].
        apply Z.leb_le in Hactive. apply Z.ltb_ge. exact Hactive.
      - injection Hended as <- _. reflexivity. }
    revert E.
    apply raises_only_bind; [intros ? ? ? ?; discriminate | intros code].
    apply raises_only_bind; [intros ? ? ? ?; discriminate | intros hashed].
    apply raises_only_bind.
    { destruct (Py.truthy (User.movil user));
        [apply raises_only_int | apply raises_only_ret]. }
    intros movil_int.
    apply raises_only_bind; [apply raises_only_int | intros key].
    apply raises_only_bind; [apply raises_only_db_call | intros existing].
    apply raises_only_bind; [|intros; apply raises_only_ret].
    destruct existing as [existing|].
    - apply raises_only_bind; [apply raises_only_overwrite | intros row].
      apply raises_only_commit_dirty.
    - apply raises_only_bind; [apply raises_only_utcnow | intros now_e].
      apply raises_only_bind; [apply raises_only_utcnow | intros now_g].
      apply raises_only_commit_dirty. }
  destruct e as [s m|m]; [destruct He|]. unfold_session. simpl. eauto.
Qed.

End Answers.

(** X12. With a personnel lookup that does not raise, [generate_code]
    answers 404 exactly when the personnel table has no row for the
    document number, and 403 exactly when it has one whose contract ended
    before the UTC date of the call -- that is, when [User.is_active] is
    false for that date; in both cases nothing is written.  For an active
    user the call returns or answers 500, never 404 or 403. *)
Theorem generate_code_404_and_403 {argon2 : Argon2} (settings : Settings)
    (env : Env) (rows : gmap Z CodeVerification.t) (document_number : string)
    (is_resend : bool) :
  db_raises env 0%nat = false ->
  let out := run (CodeService.generate_code settings document_number is_resend) env rows in
  let today := Py.date (utcnow_at env 0) in
  (stg_personal env document_number = None <->
   out = (Raise (HTTPException 404 msg_unknown), rows)) /\
  ((exists user, stg_personal env document_number = Some user /\
                 User.is_active user today = false) <->
   out = (Raise (HTTPException 403 msg_inactive), rows)) /\
  (forall status detail, out.1 = Raise (HTTPException status detail) ->
     status = 404 \/ status = 403 \/ status = 500).
Proof.
  intros Hdb out today.
  destruct (stg_personal env document_number) as [user|] eqn:Huser.
  - destruct (User.is_active user today) eqn:Hactive.
    + pose proof (generate_code_active settings document_number is_resend env rows user
                    Hdb Huser Hactive) as Hout.
      fold out in Hout.
      split; [|split].
      * split; [discriminate|]. intros H. rewrite H in Hout.
        destruct Hout as [[g Hg]|[m Hm]]; discriminate.
      * split.
        -- intros (u & [= <-] & Hu). congruence.
        -- intros H. rewrite H in Hout.
           destruct Hout as [[g Hg]|[m Hm]]; discriminate.
      * intros status detail H. rewrite H in Hout.
        destruct Hout as [[g Hg]|[m Hm]]; [discriminate|].
        injection Hm as -> _. auto.
    + pose proof (generate_code_inactive settings document_number is_resend env rows user
                    Hdb Huser Hactive) as Hout.
      fold out in Hout. rewrite Hout.
      split; [|split].
      * split; discriminate.
      * split; [reflexivity|]. intros _. eauto.
      * intros status detail [= <- _]. auto.
  - pose proof (generate_code_unknown settings document_number is_resend env rows
                  Hdb Huser) as Hout.
    fold out in Hout. rewrite Hout.
    split; [|split].
    + split; reflexivity.
    + split; [intros (u & Hu & _); discriminate Hu | discriminate].
    + intros status detail [= <- _]. auto.
Qed.

Lemma generate_code_404_and_403_witness :
  run (CodeService.generate_code (argon2 := Sample.plain) default_settings "42" false)
      (Sample.env 0 1) ∅ =
    (Raise (HTTPException 404 msg_unknown), ∅).
Proof.
  apply (generate_code_404_and_403 (argon2 := Sample.plain) default_settings
           (Sample.env 0 1) ∅ "42" false eq_refl).
  reflexivity.
Defined.

(** ** The routes *)

Section Secrecy.
Context {argon2 : Argon2}.
Variable settings : Settings.
Variables (env : Env) (choices : nat -> nat) (salt : string) (errors : nat -> string).

Abbreviation env' := (with_draws choices salt errors env).

Lemma alike_refl e : alike e e.
Proof. destruct e; simpl; auto. Qed.

Lemma sim_ret {A} (Rv : A -> A -> Prop) s a1 a2 :
  Rv a1 a2 -> sim env' env Rv s (ret a1) (ret a2).
Proof. intros H st. split; [exact H | reflexivity]. Qed.

Lemma sim_raise {A} (Rv : A -> A -> Prop) s e : sim env' env Rv s (raise e) (raise e).
Proof. intros st. split; [apply alike_refl | reflexivity]. Qed.

Lemma sim_utcnow s : sim env' env eq s utcnow utcnow.
Proof. intros st. split; reflexivity. Qed.

Lemma sim_db_call {A} s
    (f : gmap Z CodeVerification.t -> A * gmap Z CodeVerification.t) :
  sim env' env eq s (db_call f) (db_call f).
Proof.
  intros st. unfold db_call. simpl.
  destruct (db_raises env (db_calls st)); [split; [exact I | reflexivity]|].
  destruct (f (user_pswr st)). split; reflexivity.
Qed.

Lemma sim_int s d : sim env' env eq s (CodeService.int d) (CodeService.int d).
Proof.
  unfold CodeService.int. destruct (Py.int d); [apply sim_ret | apply sim_raise].
  reflexivity.
Qed.

Lemma sim_bind {A B} (Rv : A -> A -> Prop) (Rw : B -> B -> Prop) s
    (m1 m2 : M A) (k1 k2 : A -> M B) :
  sim env' env Rv true m1 m2 ->
  (forall a1 a2, Rv a1 a2 -> sim env' env Rw s (k1 a1) (k2 a2)) ->
  sim env' env Rw s (bind m1 k1) (bind m2 k2).
Proof.
  intros Hm Hk st. unfold bind. specialize (Hm st).
  destruct (m1 env' st) as [[a1|e1] s1], (m2 env st) as [[a2|e2] s2];
    destruct Hm as [Hv Hs]; simpl in Hv, Hs; try contradiction.
  - rewrite (Hs eq_refl). apply Hk, Hv.
  - split; [exact Hv|]. intros _. apply Hs. reflexivity.
Qed.

(** A continuation that looks at neither the state nor the environment. *)
Lemma sim_bind_tail {A B} (Rv : A -> A -> Prop) (Rw : B -> B -> Prop)
    (m1 m2 : M A) (k1 k2 : A -> M B) :
  sim env' env Rv false m1 m2 ->
  (forall a1 a2 st1 st2, Rv a1 a2 -> agree Rw false (k1 a1 env' st1) (k2 a2 env st2)) ->
  sim env' env Rw false (bind m1 k1) (bind m2 k2).
Proof.
  intros Hm Hk st. unfold bind. specialize (Hm st).
  destruct (m1 env' st) as [[a1|e1] s1], (m2 env st) as [[a2|e2] s2];
    destruct Hm as [Hv _]; simpl in Hv; try contradiction.
  - apply Hk, Hv.
  - split; [exact Hv | discriminate].
Qed.

Lemma sim_try_except {A} (Rv : A -> A -> Prop) (m1 m2 : M A) (h : exn -> M A) :
  sim env' env Rv false m1 m2 ->
  (forall e1 e2 st1 st2, alike e1 e2 -> agree Rv false (h e1 env' st1) (h e2 env st2)) ->
  sim env' env Rv false (try_except m1 h) (try_except m2 h).
Proof.
  intros Hm Hh st. unfold try_except. specialize (Hm st).
  destruct (m1 env' st) as [[a1|e1] s1], (m2 env st) as [[a2|e2] s2];
    destruct Hm as [Hv _]; simpl in Hv; try contradiction.
  - split; [exact Hv | discriminate].
  - apply Hh, Hv.
Qed.

(** A handler that passes an [HTTPException] on and turns anything else
    into a 500 whose detail ends with the text of the error. *)
Lemma agree_handler {A} (Rv : A -> A -> Prop) (prefix : string) e1 e2 st1 st2 :
  alike e1 e2 ->
  agree Rv false
    (match e1 with
     | HTTPException _ _ => raise e1
     | Exception message => raise (HTTPException 500 (prefix ++ message))
     end env' st1)
    (match e2 with
     | HTTPException _ _ => raise e2
     | Exception message => raise (HTTPException 500 (prefix ++ message))
     end env st2).
Proof.
  destruct e1 as [c1 d1|m1], e2 as [c2 d2|m2]; simpl; try contradiction; intros H.
  - split; [exact H | discriminate].
  - split; [|discriminate]. simpl. split; [reflexivity | intros Hne; contradiction].
Qed.

Lemma sim_commit_dirty k row1 row2 :
  CodeVerification.correo row1 = CodeVerification.correo row2 ->
  sim env' env (fun _ _ => True) false (commit_dirty k row1) (commit_dirty k row2).
Proof.
  intros Hcorreo st. unfold commit_dirty. rewrite Hcorreo.
  destruct (CodeVerification.correo row2).
  - unfold db_call. simpl. destruct (db_raises env (db_calls st)).
    + split; [exact I | discriminate].
    + split; [exact I | discriminate].
  - split; [exact I | discriminate].
Qed.

Lemma sim_generate_code d b :
  sim env' env same_contact false
    (CodeService.generate_code settings d b) (CodeService.generate_code settings d b).
Proof.
  unfold CodeService.generate_code.
  apply sim_try_except.
  2: { intros e1 e2 st1 st2 He. unfold rollback.
       destruct e1 as [c1 d1|m1], e2 as [c2 d2|m2]; simpl in He; try contradiction.
       - split; [exact He | discriminate].
       - unfold_session. split; [|discriminate]. simpl.
         split; [reflexivity | intros Hne; contradiction]. }
  apply sim_bind with (Rv := eq).
  { intros st. unfold select_personal.
    apply (sim_db_call true (fun rows => (stg_personal env d, rows))). }
  intros user ? <-. destruct user as [user|]; [|apply sim_raise].
  apply sim_bind with (Rv := eq).
  { destruct (User.dt_fin_contrato user); [|apply sim_ret; reflexivity].
    apply sim_bind with (Rv := eq); [apply sim_utcnow|].
    intros now ? <-. apply sim_ret. reflexivity. }
  intros ended ? <-. destruct ended; [apply sim_raise|].
  apply sim_bind with (Rv := fun _ _ => True).
  { intros st. split; [exact I | reflexivity]. }
  intros code1 code2 _.
  apply sim_bind with (Rv := fun _ _ => True).
  { intros st. split; [exact I | reflexivity]. }
  intros hashed1 hashed2 _.
  apply sim_bind with (Rv := eq).
  { destruct (Py.truthy (User.movil user)); [apply sim_int | apply sim_ret; reflexivity]. }
  intros movil_int ? <-.
  apply sim_bind with (Rv := eq); [apply sim_int|].
  intros key ? <-.
  apply sim_bind with (Rv := eq); [apply sim_db_call|].
  intros existing ? <-.
  apply sim_bind_tail with (Rv := fun _ _ => True).
  2: { intros _ _ st1 st2 _. split; [split; reflexivity | discriminate]. }
  destruct existing as [existing|].
  - apply sim_bind
      with (Rv := fun r1 r2 => CodeVerification.correo r1 = CodeVerification.correo r2).
    + unfold CodeService.overwrite.
      apply sim_bind with (Rv := eq); [apply sim_utcnow|]. intros now_g ? <-.
      apply sim_bind with (Rv := eq); [apply sim_utcnow|]. intros now_v ? <-.
      destruct b; [|apply sim_ret; reflexivity].
      apply sim_bind with (Rv := eq); [apply sim_utcnow|]. intros now_r ? <-.
      apply sim_ret. reflexivity.
    + intros row1 row2 Hcorreo. apply sim_commit_dirty, Hcorreo.
  - apply sim_bind with (Rv := eq); [apply sim_utcnow|]. intros now_e ? <-.
    apply sim_bind with (Rv := eq); [apply sim_utcnow|]. intros now_g ? <-.
    unfold commit_new. simpl. apply sim_commit_dirty. reflexivity.
Qed.

Lemma sim_request_code email_sent d :
  sim env' env eq false
    (Api.request_code settings false email_sent d)
    (Api.request_code settings false email_sent d).
Proof.
  unfold Api.request_code.
  apply sim_try_except.
  2: { intros e1 e2 st1 st2 He. apply agree_handler, He. }
  apply sim_bind_tail with (Rv := same_contact); [apply sim_generate_code|].
  intros g1 g2 st1 st2 [Hcorreo Hnombre]. rewrite Hcorreo, Hnombre.
  unfold Api.email_hint, Api.debug_entry, bind.
  destruct (Py.truthy (Generated.correo g2)).
  - destruct (Api.second_part (default "" (Generated.correo g2)));
      unfold_session; simpl; split; reflexivity || discriminate || exact I.
  - unfold_session; simpl; split; reflexivity || discriminate.
Qed.

End Secrecy.

(** X13. With [DEBUG] off, what a caller of [request_code] can learn does
    not depend on the digits drawn for the code (nor on the salt of the
    hasher, nor on whether the e-mail could be sent): under other draws,
    with the same clock, the same personnel table and the database failing
    on the same calls, the route returns the same response body, or raises
    an [HTTPException] with the same status and, unless the status is 500,
    the same detail.  The detail of a 500 is left out: it quotes the
    database error, whose text can name the stored digest. *)
Theorem request_code_hides_the_code {argon2 : Argon2} (settings : Settings)
    (env : Env) (rows : gmap Z CodeVerification.t) (document_number : string)
    (choices : nat -> nat) (salt : string) (errors : nat -> string)
    (email_sent email_sent' : bool) :
  match (run (Api.request_code settings false email_sent document_number)
             (with_draws choices salt errors env) rows).1,
        (run (Api.request_code settings false email_sent' document_number) env rows).1
  with
  | Return response1, Return response2 => response1 = response2
  | Raise (HTTPException status1 detail1), Raise (HTTPException status2 detail2) =>
      status1 = status2 /\ (status1 <> 500 -> detail1 = detail2)
  | _, _ => False
  end.
Proof.
  assert (Api.request_code settings false email_sent document_number =
          Api.request_code settings false email_sent' document_number) as -> by reflexivity.
  unfold run.
  pose proof (sim_request_code settings env choices salt errors email_sent' document_number
                {| user_pswr := rows; utc_reads := 0; db_calls := 0 |}) as [H _].
  assert (forall st e st',
            Api.request_code settings false email_sent' document_number
              (with_draws choices salt errors env) st = (Raise e, st') ->
            exists status detail, e = HTTPException status detail) as Hhttp.
  { intros st e st'. unfold Api.request_code, try_except.
    match goal with
    | |- context [match ?m ?en st with _ => _ end] => destruct (m en st) as [[a|e0] s0]
    end; [discriminate|].
    destruct e0 as [c d|m]; unfold raise; intros [= <- _]; eauto. }
  destruct (Api.request_code settings false email_sent' document_number
              (with_draws choices salt errors env) _) as [[a1|e1] s1] eqn:E1,
           (Api.request_code settings false email_sent' document_number env _)
             as [[a2|e2] s2];
    simpl in H |- *; try contradiction.
  - exact H.
  - destruct (Hhttp _ _ _ E1) as (status & detail & ->).
    destruct e2 as [c2 d2|m2]; simpl in H; [exact H | contradiction].
Qed.


(** ** Document numbers and codes between the schema and the service *)



Lemma is_digit_not_sign c :
  Schema.is_digit c = true -> c <> "+"%char /\ c <> "-"%char.
Proof. intros H. split; intros ->; discriminate H. Qed.












Lemma is_digit_digit_char n : Schema.is_digit (CodeService.digit_char n) = true.
Proof.
  unfold CodeService.digit_char.
  pose proof (Nat.mod_upper_bound n 10 ltac:(discriminate)) as Hb.
  destruct (n mod 10)%nat as [|[|[|[|[|[|[|[|[|[|k]]]]]]]]]]; try reflexivity.
  exfalso. lia.
Qed.

Lemma drawn_shape env :
  String.length (drawn env) = 6%nat /\ all_digits (drawn env) = true.
Proof.
  unfold drawn. cbn [seq List.map string_of_list_ascii].
  split; [reflexivity|].
  cbn [all_digits]. rewrite !is_digit_digit_char. reflexivity.
Qed.

Lemma generate_code_code {argon2 : Argon2} settings d b env st g st1 :
  CodeService.generate_code settings d b env st = (Return g, st1) ->
  Generated.code g = drawn env.
Proof.
  unfold CodeService.generate_code. intros H.
  apply try_except_Return in H.
  2: { intros [s m|m] env1 st2; unfold_session; discriminate. }
  apply bind_Return in H as (user & s1 & _ & H).
  destruct user as [user|]; [|discriminate H].
  apply bind_Return in H as (ended & s2 & _ & H).
  destruct ended; [discriminate H|].
  apply bind_Return in H as (code & s3 & Hcode & H).
  injection Hcode as <- <-.
  apply bind_Return in H as (hashed & s4 & _ & H).
  apply bind_Return in H as (movil_int & s5 & _ & H).
  apply bind_Return in H as (key & s6 & _ & H).
  apply bind_Return in H as (existing & s7 & _ & H).
  apply bind_Return in H as (u & s8 & _ & H).
  injection H as <- _. reflexivity.
Qed.

Lemma validate_code_six_digits s :
  String.length s = 6%nat -> all_digits s = true -> Schema.validate_code s = Some s.
Proof.
  destruct s as [|c0 [|c1 [|c2 [|c3 [|c4 [|c5 [|c6 s]]]]]]]; try discriminate.
  intros _. simpl. intros H.
  repeat (apply andb_true_iff in H as [?H H]).
  unfold Schema.validate_code. simpl.
  repeat match goal with Hc : Schema.is_digit _ = true |- _ => rewrite Hc; clear Hc end.
  reflexivity.
Qed.

(** X15. The code a generate or resend returns is six decimal digits,
    each drawn by [secrets.choice]: the schema of the verification request
    accepts it as it is. *)
Theorem generated_code_is_six_digits {argon2 : Argon2} (settings : Settings)
    (env : Env) (rows rows1 : gmap Z CodeVerification.t) (document_number : string)
    (resend : bool) (g : Generated.t) :
  run (if resend then CodeService.resend_code settings document_number
       else CodeService.generate_code settings document_number false)
      env rows = (Return g, rows1) ->
  Generated.code g = drawn env /\
  String.length (Generated.code g) = 6%nat /\
  all_digits (Generated.code g) = true /\
  Schema.validate_code (Generated.code g) = Some (Generated.code g).
Proof.
  intros Hrun.
  assert (Generated.code g = drawn env) as Hcode.
  { unfold run in Hrun. destruct resend.
    - destruct (CodeService.resend_code settings document_number env _)
        as [res st1] eqn:E.
      injection Hrun as -> _. revert E. unfold CodeService.resend_code. intros H.
      apply try_except_Return in H.
      2: { intros [s m|m] env1 st2; unfold_session; discriminate. }
      apply bind_Return in H as (key & s1 & _ & H).
      apply bind_Return in H as (existing & s2 & _ & H).
      apply bind_Return in H as (u & s3 & _ & H).
      exact (generate_code_code _ _ _ _ _ _ _ H).
    - destruct (CodeService.generate_code settings document_number false env _)
        as [res st1] eqn:E.
      injection Hrun as -> _. exact (generate_code_code _ _ _ _ _ _ _ E). }
  destruct (drawn_shape env) as [Hlen Hdigits].
  rewrite Hcode. repeat split; try assumption.
  apply validate_code_six_digits; assumption.
Qed.

Lemma generated_code_is_six_digits_witness :
  Schema.validate_code "012345" = Some "012345".
Proof.
  apply (generated_code_is_six_digits (argon2 := Sample.plain) default_settings
           (Sample.env 0 1) ∅
           (run (CodeService.generate_code (argon2 := Sample.plain) default_settings
                   "123456789" false) (Sample.env 0 1) ∅).2
           "123456789" false
           {| Generated.correo := Some "ana@example.com";
              Generated.nombre := Some "Ana";
              Generated.code := "012345" |}).
  vm_compute. reflexivity.
Defined.

(** ** The request route after the code is stored *)

Lemma second_part_without_at c :
  ~ In "@"%char (list_ascii_of_string c) -> Api.second_part c = None.
Proof.
  induction c as [|a c IH]; simpl; [reflexivity|].
  intros Hin. destruct (Ascii.eqb_spec a "@") as [->|Hneq].
  - exfalso. apply Hin. left. reflexivity.
  - apply IH. intros H. apply Hin. right. exact H.
Qed.

Lemma run_generate_code_state {argon2 : Argon2} settings d b env rows g rows1 :
  run (CodeService.generate_code settings d b) env rows = (Return g, rows1) ->
  exists st1,
    CodeService.generate_code settings d b env
      {| user_pswr := rows; utc_reads := 0; db_calls := 0 |} = (Return g, st1) /\
    user_pswr st1 = rows1.
Proof.
  unfold run. destruct (CodeService.generate_code settings d b env _) as [r st1].
  intros [= -> <-]. eauto.
Qed.

(** X16. [request_code] builds the e-mail hint after the code was
    generated, stored and handed to the e-mail service.  When the address
    on file is not empty and has no ["@"], [split("@")[1]] raises and the
    route answers 500 -- while the new code stays committed in the table. *)
Theorem request_code_fails_after_storing {argon2 : Argon2} (settings : Settings)
    (DEBUG email_sent : bool) (env : Env) (rows rows1 : gmap Z CodeVerification.t)
    (document_number : string) (g : Generated.t) (c : string) :
  run (CodeService.generate_code settings document_number false) env rows
    = (Return g, rows1) ->
  Generated.correo g = Some c ->
  c <> "" ->
  ~ In "@"%char (list_ascii_of_string c) ->
  run (Api.request_code settings DEBUG email_sent document_number) env rows =
    (Raise (HTTPException 500 "Error al solicitar código: list index out of range"),
     rows1) /\
  exists key row,
    rows1 !! key = Some row /\
    CodeVerification.pswr row = argon2_hash (argon2_salt env) (Generated.code g).
Proof.
  intros Hrun Hcorreo Hne Hat. split.
  - apply run_generate_code_state in Hrun as (st1 & Hgen & <-).
    unfold run, Api.request_code, try_except, bind. rewrite Hgen.
    unfold Api.email_hint. rewrite Hcorreo.
    destruct c as [|a c]; [contradiction|].
    change (Py.truthy (Some (String a c))) with true.
    change (default "" (Some (String a c))) with (String a c).
    cbv iota. rewrite (second_part_without_at _ Hat). reflexivity.
  - apply run_generate_code_row in Hrun
      as (key & row & user & _ & _ & -> & (Hpswr & _) & _).
    exists key, row. split; [apply lookup_insert_eq | exact Hpswr].
Qed.

Lemma request_code_fails_after_storing_witness :
  let env :=
    {| utcnow_at := fun _ => 0;
       db_raises := fun _ => false;
       db_error := fun _ => "OperationalError";
       stg_personal := fun _ => Some
         {| User.nro_documento := "123456789";
            User.ds_empleado := Some "Ana";
            User.correo := Some "sin correo";
            User.movil := None;
            User.ds_cargo := None;
            User.cod_oficina_area := None;
            User.dt_fin_contrato := None |};
       secrets_choice := fun n => n;
       argon2_salt := "s" |} in
  exists rows1,
    run (Api.request_code (argon2 := Sample.plain) default_settings false true "123456789")
        env ∅ =
      (Raise (HTTPException 500 "Error al solicitar código: list index out of range"),
       rows1) /\
    is_Some (rows1 !! 123456789).
Proof.
  intros env.
  destruct (request_code_fails_after_storing (argon2 := Sample.plain) default_settings
              false true env ∅
              (run (CodeService.generate_code (argon2 := Sample.plain) default_settings
                      "123456789" false) env ∅).2
              "123456789"
              {| Generated.correo := Some "sin correo";
                 Generated.nombre := Some "Ana";
                 Generated.code := "012345" |} "sin correo")
    as [Hrun _].
  - vm_compute. reflexivity.
  - reflexivity.
  - discriminate.
  - simpl. intros H. repeat (destruct H as [H|H]; [discriminate H|]). exact H.
  - eexists. split; [exact Hrun|]. vm_compute. eauto.
Defined.

(** ** From the request to the verification *)




(** ** A mobile number that is not an integer *)

Lemma generate_code_parses_movil {argon2 : Argon2} settings d b env st g st1 :
  CodeService.generate_code settings d b env st = (Return g, st1) ->
  exists user,
    stg_personal env d = Some user /\
    (Py.truthy (User.movil user) = true ->
     is_Some (Py.int (default "" (User.movil user)))).
Proof.
  unfold CodeService.generate_code. intros H.
  apply try_except_Return in H.
  2: { intros [s m|m] env1 st2; unfold_session; discriminate. }
  apply bind_Return in H as (user & s1 & Huser & H).
  apply db_call_Return in Huser as (Huser & _ & _). simpl in Huser.
  destruct user as [user|]; [|discriminate H].
  apply bind_Return in H as (ended & s2 & _ & H).
  destruct ended; [discriminate H|].
  apply bind_Return in H as (code & s3 & _ & H).
  apply bind_Return in H as (hashed & s4 & _ & H).
  apply bind_Return in H as (movil_int & s5 & Hmovil & _).
  exists user. split; [auto|]. intros Htruthy. rewrite Htruthy in Hmovil.
  apply int_Return in Hmovil as [Hint _]. eauto.
Qed.

Lemma resend_code_Return_generate {argon2 : Argon2} settings d env st g st1 :
  CodeService.resend_code settings d env st = (Return g, st1) ->
  exists st0, CodeService.generate_code settings d true env st0 = (Return g, st1).
Proof.
  unfold CodeService.resend_code. intros H.
  apply try_except_Return in H.
  2: { intros [s m|m] env1 st2; unfold_session; discriminate. }
  apply bind_Return in H as (key & s1 & _ & H).
  apply bind_Return in H as (existing & s2 & _ & H).
  apply bind_Return in H as (u & s3 & _ & H).
  eauto.
Qed.

(** X18. [generate_code] converts the mobile number on file with
    [int()].  For a user whose [movil] is ASCII text, not empty, and not an
    integer literal (separators, spaces inside, letters), no generate and
    no resend ever returns a code: every call raises and stores nothing.
    When the personnel lookup works and the user is active, what
    [generate_code] raises is a 500. *)
Theorem generate_code_malformed_movil {argon2 : Argon2} (settings : Settings)
    (env : Env) (rows : gmap Z CodeVerification.t) (document_number : string)
    (is_resend : bool) (user : User.row) (movil : string) :
  stg_personal env document_number = Some user ->
  User.movil user = Some movil ->
  movil <> "" ->
  Py.is_ascii movil = true ->
  Py.int movil = None ->
  (forall resend : bool, exists e,
     run (if resend then CodeService.resend_code settings document_number
          else CodeService.generate_code settings document_number is_resend)
         env rows = (Raise e, rows)) /\
  (db_raises env 0%nat = false ->
   User.is_active user (Py.date (utcnow_at env 0)) = true ->
   exists detail,
     run (CodeService.generate_code settings document_number is_resend) env rows =
       (Raise (HTTPException 500 detail), rows)).
Proof.
  intros Huser Hmovil Hne _ Hint.
  assert (Py.truthy (Some movil) = true) as Htruthy.
  { destruct movil; [contradiction | reflexivity]. }
  assert (forall b st g st1,
            CodeService.generate_code settings document_number b env st
              <> (Return g, st1)) as Hnever.
  { intros b st g st1 H.
    apply generate_code_parses_movil in H as (u & Hu & Hparse).
    assert (u = user) as -> by congruence.
    rewrite Hmovil in Hparse. destruct (Hparse Htruthy) as [n Hn].
    simpl in Hn. congruence. }
  split.
  - intros resend.
    destruct (run (if resend then CodeService.resend_code settings document_number
                   else CodeService.generate_code settings document_number is_resend)
                env rows) as [[g|e] rows1] eqn:Hrun.
    + exfalso. unfold run in Hrun. destruct resend.
      * destruct (CodeService.resend_code settings document_number env _)
          as [res st1] eqn:E.
        injection Hrun as -> _.
        apply resend_code_Return_generate in E as (st0 & E).
        exact (Hnever _ _ _ _ E).
      * destruct (CodeService.generate_code settings document_number is_resend env _)
          as [res st1] eqn:E.
        injection Hrun as -> _. exact (Hnever _ _ _ _ E).
    + exists e. f_equal.
      revert Hrun. destruct resend; apply run_Raise_clean.
      * apply raises_clean_resend_code.
      * apply raises_clean_generate_code.
  - intros Hdb Hactive.
    unfold run, CodeService.generate_code, CodeService.int. unfold_session.
    simpl. rewrite Hdb, Huser. simpl.
    unfold User.is_active in Hactive.
    destruct (User.dt_fin_contrato user) as [fin|]; simpl.
    + apply Z.leb_le in Hactive. apply Z.ltb_ge in Hactive. rewrite Hactive.
      simpl. rewrite Hmovil, Htruthy. simpl. rewrite Hint. simpl. eauto.
    + rewrite Hmovil, Htruthy. simpl. rewrite Hint. simpl. eauto.
Qed.

Lemma generate_code_malformed_movil_witness :
  let env :=
    {| utcnow_at := fun _ => 0;
       db_raises := fun _ => false;
       db_error := fun _ => "OperationalError";
       stg_personal := fun _ => Some
         {| User.nro_documento := "123456789";
            User.ds_empleado := Some "Ana";
            User.correo := Some "ana@example.com";
            User.movil := Some "300-123-4567";
            User.ds_cargo := None;
            User.cod_oficina_area := None;
            User.dt_fin_contrato := None |};
       secrets_choice := fun n => n;
       argon2_salt := "s" |} in
  exists e,
    run (CodeService.resend_code (argon2 := Sample.plain) default_settings "123456789")
        env ∅ = (Raise e, ∅).
Proof.
  intros env.
  refine (proj1 (generate_code_malformed_movil (argon2 := Sample.plain) default_settings
            env ∅ "123456789" false _ "300-123-4567" eq_refl eq_refl _ eq_refl eq_refl)
            true).
  discriminate.
Defined.

(** ** The verification route *)

(** What a returned validation carries: data on success, and on failure
    untouched rows and one of the four messages. *)
Lemma validate_code_sound_and_failures_helper {argon2 : Argon2} env rows rows'
    document_number code r :
  run (CodeService.validate_code document_number code) env rows = (Return r, rows') ->
  (Validation.success r = true -> is_Some (Validation.data r)) /\
  (Validation.success r = false ->
   rows' = rows /\
   Validation.data r = None /\
   In (Validation.message r)
      [CodeService.msg_not_found; CodeService.msg_already_used;
       CodeService.msg_expired; CodeService.msg_incorrect]).
Proof.
  intros Hrun.
  destruct (Py.int document_number) as [key|] eqn:Hkey.
  2: { revert Hrun. unfold_run. rewrite Hkey. simpl. discriminate. }
  destruct (db_raises env 0%nat) eqn:Hquery.
  { revert Hrun. unfold_run. rewrite Hkey. simpl. rewrite Hquery. discriminate. }
  destruct (rows !! key) as [row|] eqn:Hrow.
  2: { rewrite (validate_code_not_found env rows _ code key Hkey Hquery Hrow) in Hrun.
       injection Hrun as <- <-. split; [discriminate|]. repeat split; simpl; auto 6. }
  destruct (decide (CodeVerification.revoked row = 0)) as [Hunused|Hused].
  2: { rewrite (validate_code_already_used env rows _ code key Hkey Hquery row Hrow Hused)
         in Hrun.
       injection Hrun as <- <-. split; [discriminate|]. repeat split; simpl; auto 6. }
  destruct (decide (CodeVerification.time_stamp_vencimiento row < utcnow_at env 0))
    as [Hlate|Hintime].
  { rewrite (validate_code_expired env rows _ code key Hkey Hquery row Hrow Hunused Hlate)
      in Hrun.
    injection Hrun as <- <-. split; [discriminate|]. repeat split; simpl; auto 6. }
  apply Z.nlt_ge in Hintime.
  destruct (CodeService.verify_code_hash code (CodeVerification.pswr row)) eqn:Hverify.
  2: { rewrite (validate_code_incorrect env rows _ code key Hkey Hquery row Hrow
                  Hunused Hintime Hverify) in Hrun.
       injection Hrun as <- <-. split; [discriminate|]. repeat split; simpl; auto 6. }
  destruct (validate_code_passed env rows _ code key Hkey Hquery row Hrow Hunused
              Hintime Hverify) as [[e He]|[[e He]|[Hout _]]]; rewrite Hrun in *.
  - discriminate He.
  - discriminate He.
  - injection Hout as -> _. split; [simpl; eauto | discriminate].
Qed.

(** X19. What [verify_code] can answer: a success body, whose data is the
    profile; or 401 with one of the four messages of the service, in which
    case no row changed; or 500. *)
Theorem verify_code_outcomes {argon2 : Argon2} (env : Env)
    (rows : gmap Z CodeVerification.t) (document_number code : string) :
  let out := run (Api.verify_code document_number code) env rows in
  (exists answer, out.1 = Return answer /\ ApiResponse.success answer = true /\
                  is_Some (ApiResponse.data answer)) \/
  (exists detail, out = (Raise (HTTPException 401 detail), rows) /\
     In detail [CodeService.msg_not_found; CodeService.msg_already_used;
                CodeService.msg_expired; CodeService.msg_incorrect]) \/
  out.1 = Raise (HTTPException 500 "Error al validar el código de validación.").
Proof.
  intros out. subst out.
  destruct (run (CodeService.validate_code document_number code) env rows)
    as [[r|e] rows1] eqn:Hrun.
  - pose proof (validate_code_sound_and_failures_helper env rows rows1 _ _ r Hrun) as Hr.
    assert (run (Api.verify_code document_number code) env rows =
            if negb (Validation.success r)
            then (Raise (HTTPException 401 (Validation.message r)), rows1)
            else (Return
                    {| ApiResponse.success := true;
                       ApiResponse.message :=
                         "Código verificado correctamente. Acceso permitido.";
                       ApiResponse.data :=
                         (fun p =>
                            [ ("document_number", Str (Profile.document_number p));
                              ("nombre", of_optional (Profile.nombre p));
                              ("correo", of_optional (Profile.correo p));
                              ("cargo", of_optional (Profile.cargo p));
                              ("oficina", of_optional (Profile.oficina p)) ])
                         <$> Validation.data r |}, rows1)) as ->.
    { revert Hrun. unfold run, Api.verify_code, bind.
      destruct (CodeService.validate_code document_number code env _) as [res st1].
      intros [= -> <-]. destruct (Validation.success r); reflexivity. }
    destruct (Validation.success r) eqn:Hsuccess; simpl.
    + left. eexists. split; [reflexivity|]. split; [reflexivity|].
      destruct Hr as [Hdata _]. destruct (Hdata eq_refl) as [p ->]. simpl. eauto.
    + right. left. destruct Hr as [_ Hfail].
      destruct (Hfail eq_refl) as (-> & _ & Hin). eauto.
  - right. right.
    assert (e = HTTPException 500 "Error al validar el código de validación.") as ->.
    { revert Hrun. unfold run, CodeService.validate_code, try_except.
      match goal with
      | |- context [match ?m env ?st with _ => _ end] =>
          destruct (m env st) as [[a|e0] st1]
      end; unfold_session; [discriminate|]. intros [= <- _]. reflexivity. }
    revert Hrun. unfold run, Api.verify_code, bind.
    destruct (CodeService.validate_code document_number code env _) as [res st1].
    intros [= -> <-]. reflexivity.
Qed.
